(** * GMaps_locations_to_GeoJSON: a shallow embedding of [run.py]

    The script reads a CSV of saved places, resolves every row through two
    Google Places endpoints (Find Place from Text, then Place Details) under
    a per-run request budget, and writes a GeoJSON FeatureCollection.

    The embedding follows [run.py] function by function and keeps its names.
    - Python values that travel through the program (decoded JSON, the
      output document) are the inductive type [json]; a dict is an
      association list in insertion order, read with first-match lookup.
    - A [str] is a [string] whose characters are code points below 256.
    - A CSV row (a [csv.DictReader] dict) is a [gmap string (option string)].
    - Everything the script does to the outside (dialogs, environment,
      clock, files, HTTP, sleeping, printing) goes through a state and
      exception monad [M] that appends to a chronological [trace] and raises
      Python exceptions as [Raise]. The answers of the outside world are the
      fields of a [World].
    [extract_place_ref_from_url] is never called by the script and is left
    out. *)

From Stdlib Require Import ZArith QArith String Ascii List Lia.
From Stdlib Require Import Floats.SpecFloat.
From stdpp Require Import base option gmap strings list pretty.

Import ListNotations.
Local Open Scope string_scope.
Local Open Scope Z_scope.

(** ** Python values *)

#[local] Set Warnings "-register-all".

Inductive json : Type :=
| JNull
| JBool (b : bool)
| JInt (z : Z)
| JFloat (f : spec_float)
| JStr (s : string)
| JArr (l : list json)
| JObj (kvs : list (string * json)).

(** What [requests.get] raises when it gets no response: the subclasses of
    [requests.exceptions.RequestException] for a failed connection, an
    expired timeout (the calls pass [timeout=10]) and a redirect loop. *)
Inductive request_exception : Type :=
| ConnectionError
| Timeout
| TooManyRedirects.

(** Python exceptions the script can raise. *)
Inductive exn : Type :=
| SystemExit (msg : string)
| RequestException (kind : request_exception)
| HTTPError
| JSONDecodeError
| AttributeError
| TypeError
| KeyError
| IndexError
| OSError.

Inductive result (A : Type) : Type :=
| Ok (a : A)
| Raise (e : exn).
Arguments Ok {A} a.
Arguments Raise {A} e.

Module Py.

(** Truth value of a Python object, as tested by [if], [not], [and], [or]. *)
Definition truthy (v : json) : bool :=
  match v with
  | JNull => false
  | JBool b => b
  | JInt z => negb (z =? 0)
  | JFloat (S754_zero _) => false
  | JFloat _ => true
  | JStr s => negb (String.eqb s "")
  | JArr l => match l with [] => false | _ => true end
  | JObj kvs => match kvs with [] => false | _ => true end
  end.

(** [a or b] *)
Definition or_ (a b : json) : json := if truthy a then a else b.

Definition str_truthy (s : string) : bool := negb (String.eqb s "").

(** [a or b] on strings *)
Definition str_or (a b : string) : string := if str_truthy a then a else b.

(** First-match lookup in a dict. *)
Fixpoint lookup (k : string) (kvs : list (string * json)) : option json :=
  match kvs with
  | [] => None
  | (k', v) :: rest => if String.eqb k k' then Some v else lookup k rest
  end.

(** [d[k] = v] on a dict: overwrite in place, or append a new key. *)
Fixpoint setitem (k : string) (v : json) (kvs : list (string * json))
  : list (string * json) :=
  match kvs with
  | [] => [(k, v)]
  | (k', v') :: rest =>
      if String.eqb k k' then (k, v) :: rest else (k', v') :: setitem k v rest
  end.

(** [v.get(k, default)]; only a dict has the method. *)
Definition get_default (v : json) (k : string) (default : json) : result json :=
  match v with
  | JObj kvs => Ok (match lookup k kvs with Some x => x | None => default end)
  | _ => Raise AttributeError
  end.

(** [v.get(k)] *)
Definition get (v : json) (k : string) : result json := get_default v k JNull.

(** [v[k]] for a string key [k]. *)
Definition getitem (v : json) (k : string) : result json :=
  match v with
  | JObj kvs => match lookup k kvs with Some x => Ok x | None => Raise KeyError end
  | _ => Raise TypeError
  end.

(** [sub in s] on strings. *)
Fixpoint str_in (sub s : string) : bool :=
  String.prefix sub s
  || match s with
     | EmptyString => false
     | String _ s' => str_in sub s'
     end.

Definition is_str (k : string) (v : json) : bool :=
  match v with JStr s => String.eqb s k | _ => false end.

(** [k in v] for a string [k]. *)
Definition contains (k : string) (v : json) : result bool :=
  match v with
  | JObj kvs => Ok (match lookup k kvs with Some _ => true | None => false end)
  | JArr l => Ok (existsb (is_str k) l)
  | JStr s => Ok (str_in k s)
  | _ => Raise TypeError
  end.

(** [v[0]] *)
Definition first (v : json) : result json :=
  match v with
  | JArr (x :: _) => Ok x
  | JArr [] => Raise IndexError
  | JStr (String c _) => Ok (JStr (String c EmptyString))
  | JStr EmptyString => Raise IndexError
  | JObj _ => Raise KeyError
  | _ => Raise TypeError
  end.

(** The items a [for] loop over [v] visits. *)
Definition iter (v : json) : result (list json) :=
  match v with
  | JArr l => Ok l
  | JObj kvs => Ok (map (fun kv => JStr (fst kv)) kvs)
  | JStr s => Ok (map (fun c => JStr (String c EmptyString)) (list_ascii_of_string s))
  | _ => Raise TypeError
  end.

(** [str.isspace] on one character (code points below 256). *)
Definition isspace (c : ascii) : bool :=
  let n := N_of_ascii c in
  ((9 <=? n) && (n <=? 13) || (28 <=? n) && (n <=? 32)
   || (n =? 133) || (n =? 160))%N.

Fixpoint lstrip (s : string) : string :=
  match s with
  | EmptyString => EmptyString
  | String c s' => if isspace c then lstrip s' else s
  end.

Fixpoint rstrip (s : string) : string :=
  match s with
  | EmptyString => EmptyString
  | String c s' =>
      match rstrip s' with
      | EmptyString => if isspace c then EmptyString else String c EmptyString
      | t => String c t
      end
  end.

(** [s.strip()] *)
Definition strip (s : string) : string := rstrip (lstrip s).

(** [s.split(sep)] for a non-empty [sep]: occurrences are taken left to
    right without overlap. [skip] counts the characters of a separator
    still to be dropped, [cur] is the piece being read. *)
Fixpoint split_go (sep s : string) (skip : nat) (cur : string) : list string :=
  match s with
  | EmptyString => [cur]
  | String c s' =>
      match skip with
      | S k => split_go sep s' k cur
      | O =>
          if String.prefix sep s
          then cur :: split_go sep s' (Nat.pred (String.length sep)) EmptyString
          else split_go sep s' O (cur ++ String c EmptyString)
      end
  end.

Definition split (sep s : string) : list string := split_go sep s O EmptyString.

(** [l[0]] and [l[-1]] on the list a split returns (never empty). *)
Definition head_str (l : list string) : string := List.hd EmptyString l.
Definition last_str (l : list string) : string := List.last l EmptyString.

(** [s.replace("+", " ")] *)
Fixpoint replace_plus (s : string) : string :=
  match s with
  | EmptyString => EmptyString
  | String c s' => String (if Ascii.eqb c "+" then " "%char else c) (replace_plus s')
  end.

(** [urllib.parse.quote_plus]: unreserved characters stay, a space becomes
    [+], every other character is UTF-8 encoded and percent-escaped. *)
Definition always_safe (c : ascii) : bool :=
  let n := N_of_ascii c in
  ((65 <=? n) && (n <=? 90) || (97 <=? n) && (n <=? 122)
   || (48 <=? n) && (n <=? 57)
   || (n =? 95) || (n =? 46) || (n =? 45) || (n =? 126))%N.

Definition hex_digit (n : N) : ascii :=
  ascii_of_N (if (n <? 10)%N then 48 + n else 55 + n)%N.

Definition percent (b : N) : string :=
  String "%" (String (hex_digit (b / 16)) (String (hex_digit (b mod 16)) EmptyString)).

Definition utf8 (cp : N) : list N :=
  if (cp <? 128)%N then [cp] else [192 + cp / 64; 128 + cp mod 64]%N.

Definition quote_char (c : ascii) : string :=
  if Ascii.eqb c " " then "+"
  else if always_safe c then String c EmptyString
  else String.concat "" (map percent (utf8 (N_of_ascii c))).

Fixpoint quote_plus (s : string) : string :=
  match s with
  | EmptyString => EmptyString
  | String c s' => quote_char c ++ quote_plus s'
  end.

End Py.

(** ** Config *)

Definition BASE_PLACES_URL : string := "https://maps.googleapis.com/maps/api/place".
Definition REQUEST_DELAY_S : Q := 2 # 10.
Definition API_REQUEST_LIMIT : Z := 1000.

(** ** The outside world *)

(** A row of [csv.DictReader]: field name to cell, [None] for a cell the
    line is too short to fill. *)
Abbreviation row := (gmap string (option string)).

(** [row.get(k)] *)
Definition row_get (r : row) (k : string) : option string :=
  match r !! k with Some (Some s) => Some s | _ => None end.

(** [(row.get(k) or "").strip()] *)
Definition row_field (r : row) (k : string) : string :=
  Py.strip (match row_get r k with Some s => Py.str_or s "" | None => "" end).

(** The two endpoints, with the query parameters that vary. *)
Inductive request : Type :=
| FindPlaceFromText (key input : string)
| PlaceDetails (key : string) (place_id : json).

Definition request_url (rq : request) : string :=
  match rq with
  | FindPlaceFromText _ _ => BASE_PLACES_URL ++ "/findplacefromtext/json"
  | PlaceDetails _ _ => BASE_PLACES_URL ++ "/details/json"
  end.

(** What [requests.get] meets: no response at all, for one of the reasons
    of [request_exception], or a response with a success or error status
    and a body that decodes as JSON or does not. *)
Inductive http_reply : Type :=
| NoResponse (kind : request_exception)
| Response (status_ok : bool) (body : option json).

Inductive event : Type :=
| EvAskInput
| EvAskOutput
| EvGetenv (name : string)
| EvNow
| EvReadCsv (path : string)
| EvHttp (rq : request)
| EvSleep (seconds : Q)
| EvPrint (msg : string)
| EvOpenWrite (path : string)
| EvWrite (path : string) (doc : json).

Record World : Type := {
  askopenfilename : string;          (* "" when the dialog is cancelled *)
  asksaveasfilename : string;        (* "" when the dialog is cancelled *)
  environ : gmap string string;
  utcnow : string;                   (* the clock, already formatted *)
  read_csv : string -> result (list row);
  http_get : nat -> request -> http_reply;  (* by number of earlier requests *)
  can_write : string -> bool;        (* [open(path, "w")] succeeds *)
  can_dump : string -> bool          (* [json.dump] into the open file completes *)
}.

(** [files] holds the documents written in full; [truncated] the paths that
    were opened for writing, which empties them, and not written in full. *)
Record state : Type := {
  trace : list event;
  files : gmap string json;
  truncated : gset string
}.

Definition init : state := {| trace := []; files := ∅; truncated := ∅ |}.

Definition is_http (e : event) : bool :=
  match e with EvHttp _ => true | _ => false end.

Definition is_now (e : event) : bool :=
  match e with EvNow => true | _ => false end.

(** Number of API requests issued so far. *)
Definition http_count (t : list event) : nat := length (List.filter is_http t).

(** ** The monad *)

Definition M (A : Type) : Type := state -> result A * state.

Definition ret {A} (a : A) : M A := fun st => (Ok a, st).

Definition bind {A B} (m : M A) (k : A -> M B) : M B :=
  fun st =>
    match m st with
    | (Ok a, st') => k a st'
    | (Raise e, st') => (Raise e, st')
    end.

Definition raise {A} (e : exn) : M A := fun st => (Raise e, st).

Definition lift {A} (r : result A) : M A := fun st => (r, st).

Definition log (e : event) : M unit :=
  fun st => (Ok tt, {| trace := trace st ++ [e]; files := files st;
                       truncated := truncated st |}).

Definition get_trace : M (list event) := fun st => (Ok (trace st), st).

(** The file at [path] is created, or emptied if it exists. *)
Definition truncate_file (path : string) : M unit :=
  fun st => (Ok tt, {| trace := trace st; files := delete path (files st);
                       truncated := {[path]} ∪ truncated st |}).

(** The file at [path] now holds [doc] in full. *)
Definition put_file (path : string) (doc : json) : M unit :=
  fun st => (Ok tt, {| trace := trace st; files := <[path := doc]> (files st);
                       truncated := truncated st ∖ {[path]} |}).

Declare Scope m_scope.
Delimit Scope m_scope with M.
Notation "'let*' x := m 'in' k" := (bind m (fun x => k))
  (at level 10, x name, m at level 100, k at level 200) : m_scope.
Notation "'let*' ' p := m 'in' k" := (bind m (fun p => k))
  (at level 10, p strict pattern, m at level 100, k at level 200) : m_scope.
Notation "m ;; k" := (bind m (fun _ => k))
  (at level 100, k at level 200, right associativity) : m_scope.
Local Open Scope m_scope.

(** The features list, the request counter and the flag of [main]'s loop. *)
Record loop_state : Type := {
  features : list json;
  request_count : Z;
  limit_reached : bool
}.

Record details : Type := {
  lat : json;
  lng : json;
  address : json;
  name : json;
  country_code : json
}.

Definition NO_LOCATION : string :=
  "No location information is available for this saved place".

(** [build_feature(row, details, now_iso)] *)
Definition build_feature (r : row) (d : option details) (now_iso : string) : json :=
  let title := row_field r "Title" in
  let url := row_field r "URL" in
  let '(coords, props) :=
    match d with
    | Some d =>
        let props :=
          [ ("date", JStr now_iso);
            ("google_maps_url",
              JStr (Py.str_or url ("http://maps.google.com/?q=" ++ Py.quote_plus title)));
            ("name", Py.or_ (name d) (JStr title));
            ("location", JObj [("address", address d)]) ] in
        let props :=
          if Py.truthy (country_code d)
          then Py.setitem "location"
                 (JObj (Py.setitem "country_code" (country_code d)
                          [("address", address d)])) props
          else props in
        ([lng d; lat d], props)
    | None =>
        let props :=
          [ ("date", JStr now_iso);
            ("google_maps_url", JStr (Py.str_or url ""));
            ("Comment", JStr NO_LOCATION) ] in
        let props :=
          if Py.str_truthy title then Py.setitem "name" (JStr title) props else props in
        ([JInt 0; JInt 0], props)
    end in
  JObj [ ("type", JStr "Feature");
         ("geometry", JObj [("type", JStr "Point"); ("coordinates", JArr coords)]);
         ("properties", JObj props) ].

Section Program.

Variable w : World.

(** [ask_input_csv_path()]: the path, or [None] when cancelled. *)
Definition ask_input_csv_path : M (option string) :=
  log EvAskInput;;
  let path := askopenfilename w in
  ret (if Py.str_truthy path then Some path else None).

(** [ask_output_geojson_path(...)]: the path, or [None] when cancelled.
    The arguments only preset the dialog and are left out. *)
Definition ask_output_geojson_path : M (option string) :=
  log EvAskOutput;;
  let path := asksaveasfilename w in
  ret (if Py.str_truthy path then Some path else None).

(** [os.environ.get(name)] *)
Definition environ_get (name : string) : M (option string) :=
  log (EvGetenv name);;
  ret (environ w !! name).

Definition API_KEY_MISSING : string :=
  "Set GOOGLE_PLACES_API_KEY (or GOOGLE_MAPS_API_KEY) in your environment. "
  ++ "Enable 'Places API' and 'Geocoding API' in Google Cloud Console.".

(** [get_api_key()] *)
Definition get_api_key : M string :=
  let* k1 := environ_get "GOOGLE_PLACES_API_KEY" in
  let* key :=
    match k1 with
    | Some k => if Py.str_truthy k then ret k1
                else environ_get "GOOGLE_MAPS_API_KEY"
    | None => environ_get "GOOGLE_MAPS_API_KEY"
    end in
  match key with
  | Some k => if Py.str_truthy k then ret k else raise (SystemExit API_KEY_MISSING)
  | None => raise (SystemExit API_KEY_MISSING)
  end.

(** [r = requests.get(url, params=params, timeout=10)] *)
Definition requests_get (rq : request) : M http_reply :=
  let* t := get_trace in
  log (EvHttp rq);;
  match http_get w (http_count t) rq with
  | NoResponse kind => raise (RequestException kind)
  | r => ret r
  end.

(** [r.raise_for_status()] *)
Definition raise_for_status (r : http_reply) : M unit :=
  match r with
  | Response true _ => ret tt
  | _ => raise HTTPError
  end.

(** [r.json()] *)
Definition response_json (r : http_reply) : M json :=
  match r with
  | Response _ (Some j) => ret j
  | _ => raise JSONDecodeError
  end.

(** The text [find_place_id] searches for: the place name in the URL path
    when there is one, else the title. *)
Definition name_from_url (maps_url : string) : option string :=
  if Py.str_truthy maps_url && Py.str_in "/place/" maps_url then
    let path := Py.head_str (Py.split "?" maps_url) in
    let part := Py.head_str (Py.split "/data=" (Py.last_str (Py.split "/place/" path))) in
    if Py.str_truthy part then Some (Py.strip (Py.replace_plus part)) else None
  else None.

Definition find_query (title maps_url : string) : string :=
  Py.strip
    (match name_from_url maps_url with
     | Some n => Py.str_or n (Py.str_or title "")
     | None => Py.str_or title ""
     end).

(** [find_place_id(api_key, title, maps_url)]; [JNull] is [None]. *)
Definition find_place_id (api_key title maps_url : string) : M json :=
  let query := find_query title maps_url in
  if negb (Py.str_truthy query) then ret JNull
  else
    let* r := requests_get (FindPlaceFromText api_key query) in
    raise_for_status r;;
    let* data := response_json r in
    let* status := lift (Py.get data "status") in
    if negb (Py.is_str "OK" status) then ret JNull
    else
      let* candidates := lift (Py.get data "candidates") in
      if negb (Py.truthy candidates) then ret JNull
      else
        let* cands := lift (Py.getitem data "candidates") in
        let* c0 := lift (Py.first cands) in
        lift (Py.get c0 "place_id").

(** The loop over [address_components]: the [short_name] of the first
    component whose [types] holds ["country"], else [None]. *)
Fixpoint find_country (comps : list json) : result json :=
  match comps with
  | [] => Ok JNull
  | comp :: rest =>
      match Py.get comp "types" with
      | Raise e => Raise e
      | Ok types =>
          match Py.contains "country" (Py.or_ types (JArr [])) with
          | Raise e => Raise e
          | Ok true => Py.get comp "short_name"
          | Ok false => find_country rest
          end
      end
  end.

(** [get_place_details(api_key, place_id)] *)
Definition get_place_details (api_key : string) (place_id : json)
  : M (option details) :=
  let* r := requests_get (PlaceDetails api_key place_id) in
  raise_for_status r;;
  let* data := response_json r in
  let* status := lift (Py.get data "status") in
  if negb (Py.is_str "OK" status) then ret None
  else
    let* result := lift (Py.get_default data "result" (JObj [])) in
    let* geom := lift (Py.get result "geometry") in
    if negb (Py.truthy geom) then ret None
    else
      let* has_loc := lift (Py.contains "location" geom) in
      if negb has_loc then ret None
      else
        let* loc := lift (Py.getitem geom "location") in
        let* la := lift (Py.get loc "lat") in
        let* loc' := lift (Py.getitem geom "location") in
        let* lo := lift (Py.get loc' "lng") in
        match la, lo with
        | JNull, _ | _, JNull => ret None
        | _, _ =>
            let* fa := lift (Py.get result "formatted_address") in
            let* nm := lift (Py.get result "name") in
            let* ac := lift (Py.get result "address_components") in
            let* comps := lift (Py.iter (Py.or_ ac (JArr []))) in
            let* cc := lift (find_country comps) in
            ret (Some {| lat := la; lng := lo;
                         address := Py.or_ fa (JStr "");
                         name := Py.or_ nm (JStr "");
                         country_code := cc |})
        end.

(** The rows [main] keeps: those with a title or a URL. *)
Definition keep_row (r : row) : bool :=
  Py.str_truthy (row_field r "Title") || Py.str_truthy (row_field r "URL").

(** Body of the [for i, row in enumerate(rows)] loop of [main]. *)
Definition enrich_row (api_key now_iso : string) (i : nat) (r : row)
    (ls : loop_state) : M loop_state :=
  let title := row_field r "Title" in
  let url := row_field r "URL" in
  log (EvPrint ("Processing: " ++ Py.str_or title (Py.str_or url "(no title/url)")));;
  let* '(d, rc, lr) :=
    if request_count ls <? API_REQUEST_LIMIT then
      let* place_id := find_place_id api_key title url in
      let rc := request_count ls + 1 in
      if Py.truthy place_id && (rc <? API_REQUEST_LIMIT) then
        log (EvSleep REQUEST_DELAY_S);;
        let* d := get_place_details api_key place_id in
        ret (d, rc + 1, limit_reached ls)
      else if Py.truthy place_id then ret (None, rc, true)
      else ret (None, rc, limit_reached ls)
    else ret (None, request_count ls, true) in
  (match d, i with
   | None, S _ => log (EvSleep REQUEST_DELAY_S)
   | _, _ => ret tt
   end);;
  ret {| features := features ls ++ [build_feature r d now_iso];
         request_count := rc;
         limit_reached := lr |}.

Fixpoint enrich_loop (api_key now_iso : string) (i : nat) (rows : list row)
    (ls : loop_state) : M loop_state :=
  match rows with
  | [] => ret ls
  | r :: rest =>
      let* ls' := enrich_row api_key now_iso i r ls in
      enrich_loop api_key now_iso (S i) rest ls'
  end.

(** [with open(path, "w", ...) as f: json.dump(doc, f, ...)]. Opening
    empties the file before anything is written; a dump that fails leaves
    it truncated. *)
Definition write_json (path : string) (doc : json) : M unit :=
  if can_write w path then
    log (EvOpenWrite path);;
    truncate_file path;;
    if can_dump w path then
      log (EvWrite path doc);; put_file path doc
    else raise OSError
  else raise OSError.

Definition feature_collection (fs : list json) : json :=
  JObj [("type", JStr "FeatureCollection"); ("features", JArr fs)].

(** [main()] *)
Definition main : M unit :=
  let* csv_path := ask_input_csv_path in
  match csv_path with
  | None => log (EvPrint "No input file selected. Exiting.")
  | Some csv_path =>
      let* geojson_path := ask_output_geojson_path in
      match geojson_path with
      | None => log (EvPrint "No output file selected. Exiting.")
      | Some geojson_path =>
          let* api_key := get_api_key in
          log EvNow;;
          let now_iso := utcnow w in
          log (EvReadCsv csv_path);;
          let* all_rows := lift (read_csv w csv_path) in
          let rows := List.filter keep_row all_rows in
          let* ls := enrich_loop api_key now_iso O rows
                       {| features := []; request_count := 0;
                          limit_reached := false |} in
          write_json geojson_path (feature_collection (features ls));;
          log (EvPrint ("Wrote " ++ pretty (length (features ls))
                        ++ " features to " ++ geojson_path));;
          if limit_reached ls then
            log (EvPrint ("API request limit reached ("
                          ++ pretty (request_count ls) ++ " requests, max "
                          ++ pretty API_REQUEST_LIMIT
                          ++ "). Remaining rows have no location data."))
          else ret tt
      end
  end.

End Program.

(** ** Reading the output document *)

(** [f["geometry"]["coordinates"]] *)
Definition feature_coordinates (f : json) : option json :=
  match f with
  | JObj kvs =>
      match Py.lookup "geometry" kvs with
      | Some (JObj g) => Py.lookup "coordinates" g
      | _ => None
      end
  | _ => None
  end.

(** [f["geometry"]["type"]] *)
Definition feature_geometry_type (f : json) : option json :=
  match f with
  | JObj kvs =>
      match Py.lookup "geometry" kvs with
      | Some (JObj g) => Py.lookup "type" g
      | _ => None
      end
  | _ => None
  end.

(** [f["properties"][k]] *)
Definition feature_property (k : string) (f : json) : option json :=
  match f with
  | JObj kvs =>
      match Py.lookup "properties" kvs with
      | Some (JObj props) => Py.lookup k props
      | _ => None
      end
  | _ => None
  end.

(** [f["properties"]["location"]["address"]] *)
Definition feature_address (f : json) : option json :=
  match feature_property "location" f with
  | Some (JObj loc) => Py.lookup "address" loc
  | _ => None
  end.

(** ** Reading a Place Details reply *)

(** [data.get("result", {})] on the keys of a decoded reply *)
Definition result_of (data : list (string * json)) : json :=
  match Py.lookup "result" data with Some x => x | None => JObj [] end.

(** [result.get("geometry")] *)
Definition geometry_of (res : list (string * json)) : json :=
  match Py.lookup "geometry" res with Some g => g | None => JNull end.



(** The world's reply to the next request, when it decodes to a dict. *)
Definition next_reply (w : World) (st : state) (rq : request)
  : option (list (string * json)) :=
  match http_get w (http_count (trace st)) rq with
  | Response true (Some (JObj data)) => Some data
  | _ => None
  end.

(** The [location] dict of a decoded Place Details reply. *)
Definition reply_location (data : list (string * json))
  : option (list (string * json)) :=
  match result_of data with
  | JObj res =>
      match geometry_of res with
      | JObj g =>
          match Py.lookup "location" g with
          | Some (JObj loc) => Some loc
          | _ => None
          end
      | _ => None
      end
  | _ => None
  end.

(** [st] after the events [evs]. *)
Definition add_events (evs : list event) (st : state) : state :=
  {| trace := trace st ++ evs; files := files st; truncated := truncated st |}.

(** The events a loop iteration emits when it makes no request. *)
Definition idle_events (i : nat) : list event :=
  match i with O => [] | S _ => [EvSleep REQUEST_DELAY_S] end.

Definition processing (r : row) : event :=
  EvPrint ("Processing: "
           ++ Py.str_or (row_field r "Title")
                (Py.str_or (row_field r "URL") "(no title/url)")).

(** The events the enrichment loop can emit. *)
Definition loop_event (e : event) : bool :=
  match e with
  | EvPrint _ | EvSleep _ | EvHttp _ => true
  | _ => false
  end.

(** The loop state after a row that got the details [d] (or none) and
    raised the counter to [rc]. *)
Definition row_done (ls : loop_state) (f : json) (rc : Z) (lr : bool) : loop_state :=
  {| features := features ls ++ [f]; request_count := rc; limit_reached := lr |}.

(** The loop invariant on the budget: the requests sent so far are at most
    [request_count], which is at most [API_REQUEST_LIMIT]. *)
Definition budget_inv (ls : loop_state) (st : state) : Prop :=
  Z.of_nat (http_count (trace st)) <= request_count ls <= API_REQUEST_LIMIT.

(** The feature of row [r], located or not. *)
Definition feature_of (now : string) (r : row) (f : json) : Prop :=
  exists d, f = build_feature r d now.

(** The loop state [main] starts from. *)
Definition loop_init : loop_state :=
  {| features := []; request_count := 0; limit_reached := false |}.

(** What [main] prints after writing the document. *)
Definition closing_events (out : string) (ls : loop_state) : list event :=
  EvPrint ("Wrote " ++ pretty (length (features ls)) ++ " features to " ++ out)
  :: (if limit_reached ls
      then [EvPrint ("API request limit reached ("
                     ++ pretty (request_count ls) ++ " requests, max "
                     ++ pretty API_REQUEST_LIMIT
                     ++ "). Remaining rows have no location data.")]
      else []).

(** [result.get("formatted_address")] on the keys of a decoded reply *)
Definition formatted_address_of (data : list (string * json)) : json :=
  match result_of data with
  | JObj res =>
      match Py.lookup "formatted_address" res with Some a => a | None => JNull end
  | _ => JNull
  end.

(** ** Sample runs *)

Module Sample.

Definition place_ok : json :=
  JObj [("candidates", JArr [JObj [("place_id", JStr "ChIJ1")]]);
        ("status", JStr "OK")].

Definition details_ok : list (string * json) :=
  [("result",
     JObj [("address_components",
             JArr [JObj [("short_name", JStr "NL");
                         ("types", JArr [JStr "country"; JStr "political"])]]);
           ("formatted_address", JStr "Westdam 59, 3441 GA Woerden");
           ("geometry",
             JObj [("location", JObj [("lat", JInt 52); ("lng", JInt 4)])]);
           ("name", JStr "Westdam 59")]);
   ("status", JStr "OK")].

Definition details_no_lng : list (string * json) :=
  [("result",
     JObj [("geometry", JObj [("location", JObj [("lat", JInt 52)])])]);
   ("status", JStr "OK")].

Definition home : row :=
  {[ "Title" := Some "Home";
     "URL" := Some "https://www.google.com/maps/place/Westdam+59/data=!4m2" ]}.

Definition blank : row :=
  {[ "Title" := Some " "; "Note" := Some "to visit"; "URL" := Some "" ]}.

Definition rows : list row := [home; blank].

Definition api (details_reply : list (string * json)) (n : nat) (rq : request)
  : http_reply :=
  match rq with
  | FindPlaceFromText _ _ => Response true (Some place_ok)
  | PlaceDetails _ _ => Response true (Some (JObj details_reply))
  end.

Definition world : World :=
  {| askopenfilename := "places.csv";
     asksaveasfilename := "places.json";
     environ := {[ "GOOGLE_PLACES_API_KEY" := "k" ]};
     utcnow := "2024-05-01T10:00:00Z";
     read_csv := fun _ => Ok rows;
     http_get := api details_ok;
     can_write := fun _ => true;
     can_dump := fun _ => true |}.

Definition world_no_lng : World :=
  {| askopenfilename := "places.csv";
     asksaveasfilename := "places.json";
     environ := {[ "GOOGLE_PLACES_API_KEY" := "k" ]};
     utcnow := "2024-05-01T10:00:00Z";
     read_csv := fun _ => Ok rows;
     http_get := api details_no_lng;
     can_write := fun _ => true;
     can_dump := fun _ => true |}.

Definition world_no_input : World :=
  {| askopenfilename := "";
     asksaveasfilename := "places.json";
     environ := {[ "GOOGLE_PLACES_API_KEY" := "k" ]};
     utcnow := "2024-05-01T10:00:00Z";
     read_csv := fun _ => Ok rows;
     http_get := api details_ok;
     can_write := fun _ => true;
     can_dump := fun _ => true |}.

Definition world_no_output : World :=
  {| askopenfilename := "places.csv";
     asksaveasfilename := "";
     environ := {[ "GOOGLE_PLACES_API_KEY" := "k" ]};
     utcnow := "2024-05-01T10:00:00Z";
     read_csv := fun _ => Ok rows;
     http_get := api details_ok;
     can_write := fun _ => true;
     can_dump := fun _ => true |}.

(** A loop state one request short of the limit, and one at the limit. *)
Definition details_home : details :=
  {| lat := JInt 52; lng := JInt 4;
     address := JStr "Westdam 59, 3441 GA Woerden";
     name := JStr "Westdam 59";
     country_code := JStr "NL" |}.

(** The state after the Find Place request of [home], and after its
    Place Details request. *)
Definition st_found : state :=
  add_events [processing home; EvHttp (FindPlaceFromText "k" "Westdam 59")] init.

Definition st_located : state :=
  add_events [EvSleep REQUEST_DELAY_S; EvHttp (PlaceDetails "k" (JStr "ChIJ1"))]
    st_found.

(** The document a run in [world] writes: [blank] is skipped. *)
Definition document : json :=
  feature_collection
    [build_feature home (Some details_home) "2024-05-01T10:00:00Z"].

Definition nearly_spent : loop_state :=
  {| features := []; request_count := 999; limit_reached := false |}.

Definition spent : loop_state :=
  {| features := []; request_count := 1000; limit_reached := false |}.

End Sample.

(** [result.get(k)] on the keys of a decoded reply *)
Definition result_field (k : string) (data : list (string * json)) : json :=
  match result_of data with
  | JObj res => match Py.lookup k res with Some a => a | None => JNull end
  | _ => JNull
  end.

(** ** Transport failures *)

(** The exception that [requests.get], [r.raise_for_status()] and
    [r.json()] raise on a reply, if one of them does. *)
Definition transport_exn (r : http_reply) : option exn :=
  match r with
  | NoResponse kind => Some (RequestException kind)
  | Response false _ => Some HTTPError
  | Response true None => Some JSONDecodeError
  | Response true (Some _) => None
  end.

(** ** Address components *)

(** ["country" in (comp.get("types") or [])] *)
Definition is_country (comp : json) : result bool :=
  match Py.get comp "types" with
  | Ok types => Py.contains "country" (Py.or_ types (JArr []))
  | Raise e => Raise e
  end.

(** [location["country_code"]] of a Feature *)
Definition feature_country_code (f : json) : option json :=
  match feature_property "location" f with
  | Some (JObj loc) => Py.lookup "country_code" loc
  | _ => None
  end.

(** ** The place reference of a URL *)

(** [[0-9a-fA-F]] *)
Definition is_hex (c : ascii) : bool :=
  let n := N_of_ascii c in
  ((48 <=? n) && (n <=? 57) || (65 <=? n) && (n <=? 70)
   || (97 <=? n) && (n <=? 102))%N.

(** The longest run of hexadecimal digits at the start of [s], and what
    follows it: what a greedy [[0-9a-fA-F]+] consumes. *)
Fixpoint hex_run (s : string) : string * string :=
  match s with
  | EmptyString => (EmptyString, EmptyString)
  | String c s' =>
      if is_hex c then let '(h, r) := hex_run s' in (String c h, r)
      else (EmptyString, s)
  end.

(** What follows the literal text [p] at the start of [s], if [s] starts
    with it. *)
Fixpoint after_prefix (p s : string) : option string :=
  match p, s with
  | EmptyString, _ => Some s
  | String a p', String b s' => if Ascii.eqb a b then after_prefix p' s' else None
  | String _ _, EmptyString => None
  end.

(** [0x[0-9a-fA-F]+:0x[0-9a-fA-F]+] matched at the start of [s]; the text
    matched. A shorter first run cannot match, since it is followed by a
    digit and not by the colon. *)
Definition match_ref (s : string) : option string :=
  match after_prefix "0x" s with
  | Some s1 =>
      let '(h1, r1) := hex_run s1 in
      match h1, after_prefix ":0x" r1 with
      | String _ _, Some s2 =>
          let '(h2, _) := hex_run s2 in
          match h2 with
          | String _ _ => Some ("0x" ++ h1 ++ ":0x" ++ h2)
          | EmptyString => None
          end
      | _, _ => None
      end
  | None => None
  end.

(** [re.search(r"!1s(0x[0-9a-fA-F]+:0x[0-9a-fA-F]+)", s)]: group 1 of the
    leftmost match. *)
Fixpoint search_ref (s : string) : option string :=
  match (match after_prefix "!1s" s with
         | Some t => match_ref t
         | None => None
         end) with
  | Some r => Some r
  | None =>
      match s with
      | EmptyString => None
      | String _ s' => search_ref s'
      end
  end.

(** [extract_place_ref_from_url(url)]; a [None] argument behaves as [""]. *)
Definition extract_place_ref_from_url (url : string) : option string :=
  if negb (Py.str_truthy url) || negb (Py.str_in "google.com/maps" url) then None
  else search_ref url.

(** ** Reading a trace *)

Definition is_sleep (e : event) : bool :=
  match e with EvSleep _ => true | _ => false end.

Definition is_details (e : event) : bool :=
  match e with EvHttp (PlaceDetails _ _) => true | _ => false end.

(** Every Place Details request of [t] comes directly after a sleep;
    [slept] tells whether the event before [t] was one. *)
Fixpoint paced (slept : bool) (t : list event) : bool :=
  match t with
  | [] => true
  | e :: rest => (if is_details e then slept else true) && paced (is_sleep e) rest
  end.

(** The API key a request carries. *)
Definition request_key (rq : request) : string :=
  match rq with
  | FindPlaceFromText key _ => key
  | PlaceDetails key _ => key
  end.

(** [e] is no request, or a request made with [key]. *)
Definition uses_key (key : string) (e : event) : bool :=
  match e with
  | EvHttp rq => String.eqb (request_key rq) key
  | _ => true
  end.

(** A trace is in order when its Place Details requests are paced and all
    its requests carry [key]. *)
Definition in_order (key : string) (t : list event) : bool :=
  paced false t && forallb (uses_key key) t.

(** A character [quote_plus] can produce. *)
Definition url_char (c : ascii) : bool :=
  Py.always_safe c || Ascii.eqb c "+" || Ascii.eqb c "%".

Fixpoint all_chars (p : ascii -> bool) (s : string) : bool :=
  match s with
  | EmptyString => true
  | String c s' => p c && all_chars p s'
  end.

(** ** Runs that go wrong *)

Module Edge.

(** No API key in the environment. *)
Definition world_no_key : World :=
  {| askopenfilename := "places.csv";
     asksaveasfilename := "places.json";
     environ := {[ "HOME" := "/home/me" ]};
     utcnow := "2024-05-01T10:00:00Z";
     read_csv := fun _ => Ok Sample.rows;
     http_get := Sample.api Sample.details_ok;
     can_write := fun _ => true;
     can_dump := fun _ => true |}.

(** The network is down: no request gets a response. *)
Definition world_offline : World :=
  {| askopenfilename := "places.csv";
     asksaveasfilename := "places.json";
     environ := {[ "GOOGLE_MAPS_API_KEY" := "k" ]};
     utcnow := "2024-05-01T10:00:00Z";
     read_csv := fun _ => Ok Sample.rows;
     http_get := fun _ _ => NoResponse Timeout;
     can_write := fun _ => true;
     can_dump := fun _ => true |}.

(** The chosen CSV cannot be opened. *)
Definition world_no_csv : World :=
  {| askopenfilename := "places.csv";
     asksaveasfilename := "places.json";
     environ := {[ "GOOGLE_PLACES_API_KEY" := "k" ]};
     utcnow := "2024-05-01T10:00:00Z";
     read_csv := fun _ => Raise OSError;
     http_get := Sample.api Sample.details_ok;
     can_write := fun _ => true;
     can_dump := fun _ => true |}.

(** A row with a title and no URL; the title has a character beyond ASCII
    (e with acute accent, code point 233). *)
Definition titled : row :=
  {[ "Title" := Some (String "C" (String "a" (String "f"
                 (String (ascii_of_N 233) " & bar")))) ]}.

(** A place URL as Google Maps exports it. *)
Definition maps_url : string :=
  "https://www.google.com/maps/place/X/data=!4m2!3m1!1s0x47c5:0xAB12!8m2".


(** Find Place answers, Place Details answers with an error status. *)
Definition world_bad_details : World :=
  {| askopenfilename := "places.csv";
     asksaveasfilename := "places.json";
     environ := {[ "GOOGLE_PLACES_API_KEY" := "k" ]};
     utcnow := "2024-05-01T10:00:00Z";
     read_csv := fun _ => Ok Sample.rows;
     http_get := fun _ rq =>
                   match rq with
                   | FindPlaceFromText _ _ => Response true (Some Sample.place_ok)
                   | PlaceDetails _ _ =>
                       Response false (Some (JObj Sample.details_ok))
                   end;
     can_write := fun _ => true;
     can_dump := fun _ => true |}.




(** Find Place knows no such place. *)
Definition zero_results : list (string * json) :=
  [("candidates", JArr []); ("status", JStr "ZERO_RESULTS")].

Definition world_zero_results : World :=
  {| askopenfilename := "places.csv";
     asksaveasfilename := "places.json";
     environ := {[ "GOOGLE_PLACES_API_KEY" := "k" ]};
     utcnow := "2024-05-01T10:00:00Z";
     read_csv := fun _ => Ok Sample.rows;
     http_get := fun _ _ => Response true (Some (JObj zero_results));
     can_write := fun _ => true;
     can_dump := fun _ => true |}.

End Edge.

(** * Properties *)

Local Open Scope list_scope.

(** ** The string helpers on small inputs *)

Example strip_ex : Py.strip "  Westdam 59 " = "Westdam 59".
Proof. reflexivity. Qed.

Example split_ex : Py.split "/place/" "a/place/place/b" = ["a"; "place/b"].
Proof. reflexivity. Qed.

Example split_overlap_ex : Py.split "/place/" "/place/place/" = [""; "place/"].
Proof. reflexivity. Qed.

Example quote_plus_ex : Py.quote_plus "Caf a+b&c/~" = "Caf+a%2Bb%26c%2F~".
Proof. reflexivity. Qed.

Example find_query_ex :
  find_query "Home" "https://www.google.com/maps/place/Westdam+59/data=!4m2"
  = "Westdam 59".
Proof. reflexivity. Qed.

Example find_query_no_place_ex : find_query "" "http://example.org/x" = "".
Proof. reflexivity. Qed.

(** ** The monad and the trace *)

Lemma add_events_nil st : add_events [] st = st.
Proof. destruct st; unfold add_events; simpl. by rewrite app_nil_r. Qed.

Lemma add_events_app evs1 evs2 st :
  add_events evs2 (add_events evs1 st) = add_events (evs1 ++ evs2) st.
Proof. unfold add_events; simpl. by rewrite app_assoc. Qed.

Lemma http_count_app t1 t2 :
  http_count (t1 ++ t2) = (http_count t1 + http_count t2)%nat.
Proof. unfold http_count. by rewrite List.filter_app, length_app. Qed.

(** Bring a trace equation to right-nested form and close it. *)
Ltac norm_trace := simpl; rewrite <- ?app_assoc, ?app_nil_r; simpl; try done.

(** Unfold one run of a straight-line piece of the program. *)
Ltac run_m :=
  unfold bind, lift, ret, raise, log, get_trace, put_file, truncate_file in *;
  simpl in *.

Section Lookups.

Variable w : World.

(** [find_place_id] leaves the files alone and sends at most one request,
    a Find Place from Text one. *)
Lemma find_place_id_events key title url st :
  exists evs,
    (find_place_id w key title url st).2 = add_events evs st
    /\ (evs = [] \/ evs = [EvHttp (FindPlaceFromText key (find_query title url))]).
Proof.
  unfold find_place_id, requests_get, raise_for_status, response_json.
  destruct (negb (Py.str_truthy (find_query title url))).
  { exists []. rewrite add_events_nil. auto. }
  exists [EvHttp (FindPlaceFromText key (find_query title url))].
  split; [|auto]. run_m.
  repeat (case_match; simplify_eq; simpl; try reflexivity).
Qed.

(** [get_place_details] leaves the files alone and sends exactly one
    request, a Place Details one. *)
Lemma get_place_details_events key pid st :
  (get_place_details w key pid st).2 = add_events [EvHttp (PlaceDetails key pid)] st.
Proof.
  unfold get_place_details, requests_get, raise_for_status, response_json.
  run_m.
  repeat (case_match; simplify_eq; simpl; try reflexivity).
Qed.

End Lookups.

Section Loop.

Variable w : World.
Variables key now : string.

(** A row met with the budget used up: no request, a placeholder feature. *)
Lemma enrich_row_exhausted i r ls st :
  API_REQUEST_LIMIT <= request_count ls ->
  enrich_row w key now i r ls st
  = (Ok (row_done ls (build_feature r None now) (request_count ls) true),
     add_events (processing r :: idle_events i) st).
Proof.
  intros Hrc. unfold enrich_row.
  assert ((request_count ls <? API_REQUEST_LIMIT) = false) as -> by lia.
  run_m. unfold row_done, add_events, processing.
  destruct i; simpl; rewrite <- ?app_assoc; reflexivity.
Qed.

(** A row met with budget left, run step by step. *)
Lemma enrich_row_budget i r ls st :
  request_count ls < API_REQUEST_LIMIT ->
  enrich_row w key now i r ls st
  = match find_place_id w key (row_field r "Title") (row_field r "URL")
            (add_events [processing r] st) with
    | (Raise e, st1) => (Raise e, st1)
    | (Ok pid, st1) =>
        if Py.truthy pid && (request_count ls + 1 <? API_REQUEST_LIMIT) then
          match get_place_details w key pid
                  (add_events [EvSleep REQUEST_DELAY_S] st1) with
          | (Raise e, st2) => (Raise e, st2)
          | (Ok d, st2) =>
              (Ok (row_done ls (build_feature r d now) (request_count ls + 2)
                     (limit_reached ls)),
               add_events (match d with None => idle_events i | Some _ => [] end) st2)
          end
        else
          (Ok (row_done ls (build_feature r None now) (request_count ls + 1)
                 (Py.truthy pid || limit_reached ls)),
           add_events (idle_events i) st1)
    end.
Proof.
  intros Hrc. unfold enrich_row.
  assert ((request_count ls <? API_REQUEST_LIMIT) = true) as -> by lia.
  run_m. fold (processing r). fold (add_events [processing r] st).
  destruct (find_place_id _ _ _ _ _) as [[pid|e] st1]; [|reflexivity].
  destruct (Py.truthy pid); simpl.
  - destruct (request_count ls + 1 <? API_REQUEST_LIMIT); simpl.
    + fold (add_events [EvSleep REQUEST_DELAY_S] st1).
      destruct (get_place_details _ _ _ _) as [[d|e] st2]; [|reflexivity].
      replace (request_count ls + 1 + 1) with (request_count ls + 2) by lia.
      destruct d, i; simpl; rewrite ?add_events_nil; reflexivity.
    + destruct i; simpl; rewrite ?add_events_nil; reflexivity.
  - destruct i; simpl; rewrite ?add_events_nil; reflexivity.
Qed.

Lemma idle_events_loop i : forallb loop_event (idle_events i) = true.
Proof. by destruct i. Qed.

Lemma idle_events_http i : http_count (idle_events i) = O.
Proof. by destruct i. Qed.

(** One iteration: only loop events, files untouched, the budget
    invariant kept, one feature appended. *)
Lemma enrich_row_step i r ls st :
  budget_inv ls st ->
  exists evs,
    (enrich_row w key now i r ls st).2 = add_events evs st
    /\ forallb loop_event evs = true
    /\ Z.of_nat (http_count (trace st ++ evs)) <= API_REQUEST_LIMIT
    /\ match (enrich_row w key now i r ls st).1 with
       | Ok ls' =>
           Z.of_nat (http_count (trace st ++ evs)) <= request_count ls'
           /\ request_count ls' <= API_REQUEST_LIMIT
           /\ exists f, feature_of now r f /\ features ls' = features ls ++ [f]
       | Raise _ => True
       end.
Proof.
  intros [Hlo Hhi].
  destruct (Z.lt_ge_cases (request_count ls) API_REQUEST_LIMIT) as [Hlt|Hge].
  2:{ rewrite enrich_row_exhausted by done. simpl.
      exists (processing r :: idle_events i). split; [done|].
      rewrite http_count_app. change (processing r :: idle_events i)
        with ([processing r] ++ idle_events i).
      rewrite forallb_app, idle_events_loop, !http_count_app, idle_events_http.
      unfold http_count in *; simpl. repeat split; try lia.
      eexists; split; [by exists None|done]. }
  rewrite enrich_row_budget by done.
  destruct (find_place_id_events w key (row_field r "Title") (row_field r "URL")
              (add_events [processing r] st)) as (fevs & Hst1 & Hfevs).
  destruct (find_place_id _ _ _ _ _) as [[pid|e] st1]; simpl in Hst1; subst st1.
  2:{ simpl. exists ([processing r] ++ fevs). rewrite add_events_app.
      split; [done|]. rewrite forallb_app, !http_count_app.
      destruct Hfevs as [-> | ->]; unfold http_count in *; simpl; repeat split; try done; lia. }
  destruct (Py.truthy pid && (request_count ls + 1 <? API_REQUEST_LIMIT)) eqn:Hc.
  - apply andb_true_iff in Hc as [_ Hrc]. apply Z.ltb_lt in Hrc.
    pose proof (get_place_details_events w key pid
                  (add_events [EvSleep REQUEST_DELAY_S]
                     (add_events fevs (add_events [processing r] st)))) as Hst2.
    destruct (get_place_details _ _ _ _) as [[d|e] st2]; simpl in Hst2; subst st2.
    + simpl.
      exists ([processing r] ++ fevs ++ [EvSleep REQUEST_DELAY_S]
              ++ [EvHttp (PlaceDetails key pid)]
              ++ match d with None => idle_events i | Some _ => [] end).
      rewrite !add_events_app, <- ?app_assoc. split; [done|].
      rewrite !forallb_app, !http_count_app.
      assert (http_count (match d with None => idle_events i | Some _ => [] end) = O)
        as -> by (destruct d; [done|apply idle_events_http]).
      assert (forallb loop_event (match d with None => idle_events i | Some _ => [] end)
              = true) as -> by (destruct d; [done|apply idle_events_loop]).
      destruct Hfevs as [-> | ->]; unfold http_count in *; simpl; repeat split; try done; try lia;
        (eexists; split; [by exists d|done]).
    + simpl.
      exists ([processing r] ++ fevs ++ [EvSleep REQUEST_DELAY_S]
              ++ [EvHttp (PlaceDetails key pid)]).
      rewrite !add_events_app, <- ?app_assoc. split; [done|].
      rewrite !forallb_app, !http_count_app.
      destruct Hfevs as [-> | ->]; unfold http_count in *; simpl; repeat split; try done; lia.
  - simpl. exists ([processing r] ++ fevs ++ idle_events i).
    rewrite !add_events_app, <- ?app_assoc. split; [done|].
    rewrite !forallb_app, !http_count_app, idle_events_loop, idle_events_http.
    destruct Hfevs as [-> | ->]; unfold http_count in *; simpl; repeat split; try done; try lia;
      (eexists; split; [by exists None|done]).
Qed.

End Loop.

Section Run.

Variable w : World.

(** The whole loop: only loop events, files untouched, the budget
    invariant kept, one feature per row in row order. *)
Lemma enrich_loop_spec key now rows : forall i ls st,
  budget_inv ls st ->
  exists evs,
    (enrich_loop w key now i rows ls st).2 = add_events evs st
    /\ forallb loop_event evs = true
    /\ Z.of_nat (http_count (trace st ++ evs)) <= API_REQUEST_LIMIT
    /\ match (enrich_loop w key now i rows ls st).1 with
       | Ok ls' =>
           exists fs, Forall2 (feature_of now) rows fs
                      /\ features ls' = features ls ++ fs
       | Raise _ => True
       end.
Proof.
  induction rows as [|r rest IH]; intros i ls st Hinv.
  - exists []. simpl. rewrite add_events_nil, app_nil_r.
    destruct Hinv. repeat split; try lia.
    exists []. rewrite app_nil_r. by split; [constructor|].
  - simpl. unfold bind.
    destruct (enrich_row_step w key now i r ls st Hinv)
      as (evs1 & Hst1 & Hev1 & Hb1 & Hres1).
    destruct (enrich_row w key now i r ls st) as [[ls1|e] st1];
      simpl in Hst1, Hres1; subst st1.
    2:{ exists evs1. simpl. done. }
    destruct Hres1 as (Hlo1 & Hhi1 & f & Hf & Hfs1).
    destruct (IH (S i) ls1 (add_events evs1 st)) as (evs2 & Hst2 & Hev2 & Hb2 & Hres2).
    { split; simpl; done. }
    exists (evs1 ++ evs2). rewrite Hst2, add_events_app, forallb_app, Hev1, Hev2.
    simpl in Hb2. rewrite <- app_assoc in Hb2. repeat split; try done.
    destruct (enrich_loop w key now (S i) rest ls1 (add_events evs1 st)).1; [|done].
    destruct Hres2 as (fs & Hfs & Heq). exists (f :: fs).
    split; [by constructor|]. rewrite Heq, Hfs1, <- app_assoc. done.
Qed.

(** [get_api_key] only reads the environment, once or twice. *)
Lemma get_api_key_events st :
  exists evs,
    (get_api_key w st).2 = add_events evs st
    /\ (evs = [EvGetenv "GOOGLE_PLACES_API_KEY"]
        \/ evs = [EvGetenv "GOOGLE_PLACES_API_KEY"; EvGetenv "GOOGLE_MAPS_API_KEY"]).
Proof.
  unfold get_api_key, environ_get. run_m.
  destruct (environ w !! "GOOGLE_PLACES_API_KEY") as [k|];
    destruct (environ w !! "GOOGLE_MAPS_API_KEY") as [k2|];
    try destruct (Py.str_truthy k) eqn:Hk;
    try destruct (Py.str_truthy k2) eqn:Hk2;
    simpl; rewrite ?Hk, ?Hk2; simpl;
    first
      [ exists [EvGetenv "GOOGLE_PLACES_API_KEY"]; split; [reflexivity|by left]
      | exists [EvGetenv "GOOGLE_PLACES_API_KEY"; EvGetenv "GOOGLE_MAPS_API_KEY"];
        split; [|by right];
        unfold add_events; simpl; rewrite <- ?app_assoc; reflexivity ].
Qed.

(** [main] when the input dialog is cancelled. *)
Lemma main_no_input st :
  askopenfilename w = "" ->
  main w st
  = (Ok tt, add_events [EvAskInput; EvPrint "No input file selected. Exiting."] st).
Proof.
  intros H. unfold main, ask_input_csv_path. run_m. rewrite H. simpl.
  unfold add_events. simpl. by rewrite <- app_assoc.
Qed.

(** [main] when the output dialog is cancelled. *)
Lemma main_no_output st :
  askopenfilename w <> "" ->
  asksaveasfilename w = "" ->
  main w st
  = (Ok tt, add_events [EvAskInput; EvAskOutput;
                        EvPrint "No output file selected. Exiting."] st).
Proof.
  intros Hin Hout. unfold main, ask_input_csv_path, ask_output_geojson_path. run_m.
  unfold Py.str_truthy. apply String.eqb_neq in Hin. rewrite Hin, Hout. simpl.
  unfold add_events. simpl. by rewrite <- !app_assoc.
Qed.

(** [main] once both paths are chosen, run step by step. *)
Lemma main_selected st :
  askopenfilename w <> "" ->
  asksaveasfilename w <> "" ->
  main w st
  = match get_api_key w (add_events [EvAskInput; EvAskOutput] st) with
    | (Raise e, st1) => (Raise e, st1)
    | (Ok key, st1) =>
        let st2 := add_events [EvNow; EvReadCsv (askopenfilename w)] st1 in
        match read_csv w (askopenfilename w) with
        | Raise e => (Raise e, st2)
        | Ok all_rows =>
            match enrich_loop w key (utcnow w) O (List.filter keep_row all_rows)
                    loop_init st2 with
            | (Raise e, st3) => (Raise e, st3)
            | (Ok ls, st3) =>
                let out := asksaveasfilename w in
                let doc := feature_collection (features ls) in
                if can_write w out then
                  if can_dump w out then
                    (Ok tt,
                     {| trace := trace st3 ++ EvOpenWrite out :: EvWrite out doc
                                 :: closing_events out ls;
                        files := <[out := doc]> (files st3);
                        truncated := truncated st3 ∖ {[out]} |})
                  else
                    (Raise OSError,
                     {| trace := trace st3 ++ [EvOpenWrite out];
                        files := delete out (files st3);
                        truncated := {[out]} ∪ truncated st3 |})
                else (Raise OSError, st3)
            end
        end
    end.
Proof.
  intros Hin Hout. unfold main, ask_input_csv_path, ask_output_geojson_path. run_m.
  unfold Py.str_truthy. apply String.eqb_neq in Hin, Hout. rewrite Hin, Hout. simpl.
  rewrite <- app_assoc. simpl. fold (add_events [EvAskInput; EvAskOutput] st).
  destruct (get_api_key w _) as [[key|e] st1]; [|done].
  rewrite <- app_assoc. simpl. fold (add_events [EvNow; EvReadCsv (askopenfilename w)] st1).
  destruct (read_csv w (askopenfilename w)) as [all_rows|e]; [|done].
  fold loop_init.
  destruct (enrich_loop w key (utcnow w) O _ loop_init _) as [[ls|e] st3]; [|done].
  unfold write_json. run_m.
  destruct (can_write w (asksaveasfilename w)); [|done]. simpl.
  destruct (can_dump w (asksaveasfilename w)); [|done]. simpl.
  rewrite insert_delete_eq, difference_union_distr_l_L, difference_diag_L,
    (left_id_L ∅ (∪)).
  unfold closing_events.
  destruct (limit_reached ls); simpl; rewrite <- ?app_assoc; done.
Qed.

End Run.

(** ** A whole run *)

(** What a run from the initial state looks like once both paths are
    chosen: the two dialogs, the environment reads, then either nothing
    more (no API key), or the clock, the CSV, the loop events and, when
    nothing was raised, the written document. *)
Lemma main_summary (w : World) :
  askopenfilename w <> "" ->
  asksaveasfilename w <> "" ->
  let out := asksaveasfilename w in
  let final := main w init in
  exists kevs rest,
    trace final.2 = [EvAskInput; EvAskOutput] ++ kevs ++ rest
    /\ (kevs = [EvGetenv "GOOGLE_PLACES_API_KEY"]
        \/ kevs = [EvGetenv "GOOGLE_PLACES_API_KEY"; EvGetenv "GOOGLE_MAPS_API_KEY"])
    /\ ((rest = [] /\ files final.2 = ∅ /\ exists e, final.1 = Raise e)
        \/ exists levs wevs,
             rest = [EvNow; EvReadCsv (askopenfilename w)] ++ levs ++ wevs
             /\ forallb loop_event levs = true
             /\ Z.of_nat (http_count levs) <= API_REQUEST_LIMIT
             /\ (((wevs = [] \/ wevs = [EvOpenWrite out])
                  /\ files final.2 = ∅ /\ exists e, final.1 = Raise e)
                 \/ exists rows ls,
                      read_csv w (askopenfilename w) = Ok rows
                      /\ Forall2 (feature_of (utcnow w)) (List.filter keep_row rows)
                           (features ls)
                      /\ wevs = EvOpenWrite out
                                :: EvWrite out (feature_collection (features ls))
                                :: closing_events out ls
                      /\ files final.2 = {[ out := feature_collection (features ls) ]}
                      /\ final.1 = Ok tt)).
Proof.
  intros Hin Hout out final. subst final. rewrite (main_selected w init Hin Hout).
  destruct (get_api_key_events w (add_events [EvAskInput; EvAskOutput] init))
    as (kevs & Hk & Hkevs).
  exists kevs.
  destruct (get_api_key w _) as [[key|e] st1]; simpl in Hk; subst st1.
  2:{ exists []. split; [norm_trace|]. split; [done|]. left. eauto. }
  assert (http_count ([EvAskInput; EvAskOutput] ++ kevs
                      ++ [EvNow; EvReadCsv (askopenfilename w)]) = O) as Hzero
    by (destruct Hkevs as [-> | ->]; reflexivity).
  destruct (read_csv w (askopenfilename w)) as [rows|e].
  2:{ exists [EvNow; EvReadCsv (askopenfilename w)].
      split; [norm_trace|]. split; [done|].
      right. exists [], []. split; [done|]. split; [done|].
      split; [unfold API_REQUEST_LIMIT, http_count; simpl; lia|].
      left. eauto 6. }
  set (st2 := add_events [EvNow; EvReadCsv (askopenfilename w)]
                (add_events kevs (add_events [EvAskInput; EvAskOutput] init))).
  assert (trace st2 = [EvAskInput; EvAskOutput] ++ kevs
                      ++ [EvNow; EvReadCsv (askopenfilename w)]) as Htr2
    by (subst st2; norm_trace).
  assert (files st2 = ∅) as Hfiles2 by done.
  destruct (enrich_loop_spec w key (utcnow w) (List.filter keep_row rows) O loop_init st2)
    as (levs & Hst3 & Hlevs & Hbound & Hres).
  { unfold budget_inv. rewrite Htr2, Hzero. unfold API_REQUEST_LIMIT. simpl. lia. }
  rewrite Htr2, !http_count_app in Hbound. rewrite !http_count_app in Hzero.
  assert (Z.of_nat (http_count levs) <= API_REQUEST_LIMIT) as Hbound' by lia.
  cbv zeta. clearbody st2.
  destruct (enrich_loop w key (utcnow w) O _ loop_init st2) as [[ls|e] st3];
    simpl in Hst3, Hres; subst st3.
  2:{ exists ([EvNow; EvReadCsv (askopenfilename w)] ++ levs).
      split; [simpl; rewrite Htr2; norm_trace|]. split; [done|].
      right. exists levs, []. rewrite app_nil_r.
      split; [done|]. split; [done|]. split; [done|]. left. eauto 6. }
  destruct Hres as (fs & Hfs & Heq). simpl in Heq. subst fs.
  destruct (can_write w out) eqn:Hw; subst out; rewrite Hw.
  - destruct (can_dump w (asksaveasfilename w)) eqn:Hd.
    + exists ([EvNow; EvReadCsv (askopenfilename w)] ++ levs
              ++ EvOpenWrite (asksaveasfilename w)
                 :: EvWrite (asksaveasfilename w) (feature_collection (features ls))
                 :: closing_events (asksaveasfilename w) ls).
      split; [simpl; rewrite Htr2; norm_trace|]. split; [done|].
      right. eexists levs, _. split; [done|]. split; [done|]. split; [done|].
      right. exists rows, ls. simpl. rewrite Hfiles2. done.
    + exists ([EvNow; EvReadCsv (askopenfilename w)] ++ levs
              ++ [EvOpenWrite (asksaveasfilename w)]).
      split; [simpl; rewrite Htr2; norm_trace|]. split; [done|].
      right. eexists levs, _. split; [done|]. split; [done|]. split; [done|].
      left. simpl. rewrite Hfiles2, delete_empty. eauto 6.
  - exists ([EvNow; EvReadCsv (askopenfilename w)] ++ levs).
    split; [simpl; rewrite Htr2; norm_trace|]. split; [done|].
    right. exists levs, []. rewrite app_nil_r.
    split; [done|]. split; [done|]. split; [done|]. left. eauto 6.
Qed.

(** Whatever a run leaves in the files is the document [main] wrote at
    the chosen output path, built from the kept rows, in a run that ended
    normally. *)
Lemma main_written (w : World) path doc :
  files (main w init).2 !! path = Some doc ->
  path = asksaveasfilename w
  /\ exists rows ls,
       read_csv w (askopenfilename w) = Ok rows
       /\ Forall2 (feature_of (utcnow w)) (List.filter keep_row rows) (features ls)
       /\ doc = feature_collection (features ls)
       /\ (main w init).1 = Ok tt.
Proof.
  destruct (decide (askopenfilename w = "")) as [Hin|Hin].
  { rewrite main_no_input by done. simpl. by rewrite lookup_empty. }
  destruct (decide (asksaveasfilename w = "")) as [Hout|Hout].
  { rewrite main_no_output by done. simpl. by rewrite lookup_empty. }
  destruct (main_summary w Hin Hout) as (kevs & rest & _ & _ & Hrest).
  destruct Hrest as [(_ & -> & _) | (levs & wevs & _ & _ & _ & Hw)].
  { by rewrite lookup_empty. }
  destruct Hw as [(_ & -> & _) | (rows & ls & Hrows & Hfs & _ & -> & Hok)].
  { by rewrite lookup_empty. }
  intros [<- <-]%lookup_singleton_Some. split; [done|]. by exists rows, ls.
Qed.

Lemma loop_events_not_now evs :
  forallb loop_event evs = true -> List.filter is_now evs = [].
Proof.
  induction evs as [|e evs IH]; [done|]. simpl.
  intros [He Hevs]%andb_true_iff. destruct e; try discriminate; simpl; auto.
Qed.

(** ** Features and replies *)

#[local] Arguments Py.lookup : simpl never.

Ltac split_ifs :=
  repeat (match goal with
          | |- context [if ?c then _ else _] => destruct c eqn:?
          end; simpl; try discriminate).

(** A lookup that yields [details] read them from the [location] dict of
    a decoded reply. *)
Lemma get_place_details_some (w : World) key pid st d st' :
  get_place_details w key pid st = (Ok (Some d), st') ->
  exists data loc,
    next_reply w st (PlaceDetails key pid) = Some data
    /\ reply_location data = Some loc
    /\ Py.lookup "lat" loc = Some (lat d)
    /\ Py.lookup "lng" loc = Some (lng d)
    /\ address d = Py.or_ (formatted_address_of data) (JStr "").
Proof.
  unfold get_place_details, requests_get, raise_for_status, response_json,
    next_reply. run_m.
  destruct (http_get w (http_count (trace st)) (PlaceDetails key pid))
    as [|[] [[| | | | | |data]|]]; simpl; try discriminate.
  unfold reply_location, formatted_address_of, result_of, geometry_of.
  destruct (negb _); simpl; [discriminate|].
  destruct (Py.lookup "result" data) as [[| | | | | |res]|] eqn:Hres;
    simpl; try discriminate.
  all: match goal with
       | |- context [Py.lookup "geometry" ?r] =>
           destruct (Py.lookup "geometry" r) as [[| | | | | |g]|] eqn:Hgeom
       end; simpl; try discriminate.
  all: try (destruct f; simpl; discriminate).
  all: try (split_ifs; fail).
  all: destruct g as [|kv g']; simpl; [discriminate|].
  all: destruct (Py.lookup "location" (kv :: g')) as [[| | | | | |loc]|] eqn:Hloc;
    simpl; try discriminate.
  all: destruct (Py.lookup "lat" loc) as [la|] eqn:Hlat,
         (Py.lookup "lng" loc) as [lo|] eqn:Hlng;
    simpl; try discriminate; try (destruct la; discriminate).
  all: destruct (Py.iter _) as [comps|]; simpl;
    [|destruct la, lo; discriminate].
  all: destruct (find_country comps) as [cc|]; simpl;
    [|destruct la, lo; discriminate].
  all: intros H; exists data, loc; rewrite Hres, Hgeom, Hloc.
  all: destruct la, lo; try discriminate; injection H as <- <-; simpl; done.
Qed.

Lemma build_feature_located r d now :
  let f := build_feature r (Some d) now in
  feature_geometry_type f = Some (JStr "Point")
  /\ feature_coordinates f = Some (JArr [lng d; lat d])
  /\ feature_address f = Some (address d)
  /\ feature_property "date" f = Some (JStr now).
Proof.
  unfold build_feature. destruct (Py.truthy (country_code d)); done.
Qed.

Lemma build_feature_unlocated r now :
  let f := build_feature r None now in
  feature_geometry_type f = Some (JStr "Point")
  /\ feature_coordinates f = Some (JArr [JInt 0; JInt 0])
  /\ feature_property "Comment" f = Some (JStr NO_LOCATION)
  /\ feature_address f = None
  /\ feature_property "date" f = Some (JStr now).
Proof.
  unfold build_feature. destruct (Py.str_truthy (row_field r "Title")); done.
Qed.

Lemma feature_of_date now r f :
  feature_of now r f -> feature_property "date" f = Some (JStr now).
Proof.
  intros [[d|] ->].
  - apply build_feature_located.
  - apply build_feature_unlocated.
Qed.

Lemma features_dated now rows fs :
  Forall2 (feature_of now) rows fs ->
  Forall (fun f => feature_property "date" f = Some (JStr now)) fs.
Proof.
  induction 1 as [|r f rs fs Hf _ IH]; constructor; [|done].
  by apply (feature_of_date _ r).
Qed.

(** ** The claims *)




(** C6. A row whose two-step lookup succeeds gets a Feature whose geometry
    is a Point holding the latitude and longitude that Place Details
    returned, and whose [properties.location.address] is the formatted
    address of the reply (the empty string when the reply has none). *)
Theorem located_feature (w : World) key now i r ls st pid st1 d st2 :
  request_count ls + 1 < API_REQUEST_LIMIT ->
  find_place_id w key (row_field r "Title") (row_field r "URL")
    (add_events [processing r] st) = (Ok pid, st1) ->
  Py.truthy pid = true ->
  get_place_details w key pid (add_events [EvSleep REQUEST_DELAY_S] st1)
    = (Ok (Some d), st2) ->
  let f := build_feature r (Some d) now in
  enrich_row w key now i r ls st
  = (Ok (row_done ls f (request_count ls + 2) (limit_reached ls)), st2)
  /\ exists data loc,
       next_reply w (add_events [EvSleep REQUEST_DELAY_S] st1) (PlaceDetails key pid)
       = Some data
       /\ reply_location data = Some loc
       /\ feature_geometry_type f = Some (JStr "Point")
       /\ feature_coordinates f = Some (JArr [lng d; lat d])
       /\ Py.lookup "lat" loc = Some (lat d)
       /\ Py.lookup "lng" loc = Some (lng d)
       /\ feature_address f = Some (Py.or_ (formatted_address_of data) (JStr ""))
       /\ forall a, formatted_address_of data = JStr a ->
                    feature_address f = Some (JStr a).
Proof.
  intros Hrc Hfind Hpid Hdet f. split.
  - rewrite enrich_row_budget by lia. rewrite Hfind, Hpid.
    assert ((request_count ls + 1 <? API_REQUEST_LIMIT) = true) as -> by lia.
    simpl. rewrite Hdet. by rewrite add_events_nil.
  - destruct (get_place_details_some _ _ _ _ _ _ Hdet)
      as (data & loc & Hreply & Hloc & Hlat & Hlng & Haddr).
    destruct (build_feature_located r d now) as (Hty & Hco & Had & _).
    exists data, loc. repeat split; try done.
    + fold f in Had. by rewrite Had, Haddr.
    + intros a Ha. fold f in Had. rewrite Had, Haddr, Ha.
      unfold Py.or_. simpl. by destruct (negb (String.eqb a "")) eqn:E;
        [|apply negb_false_iff, String.eqb_eq in E; subst a].
Qed.

Lemma located_feature_witness :
  let now := "2024-05-01T10:00:00Z" in
  let f := build_feature Sample.home (Some Sample.details_home) now in
  request_count loop_init + 1 < API_REQUEST_LIMIT
  /\ find_place_id Sample.world "k" (row_field Sample.home "Title")
       (row_field Sample.home "URL") (add_events [processing Sample.home] init)
     = (Ok (JStr "ChIJ1"), Sample.st_found)
  /\ get_place_details Sample.world "k" (JStr "ChIJ1")
       (add_events [EvSleep REQUEST_DELAY_S] Sample.st_found)
     = (Ok (Some Sample.details_home), Sample.st_located)
  /\ enrich_row Sample.world "k" now 0 Sample.home loop_init init
     = (Ok (row_done loop_init f 2 false), Sample.st_located)
  /\ feature_coordinates f = Some (JArr [JInt 4; JInt 52])
  /\ feature_address f = Some (JStr "Westdam 59, 3441 GA Woerden").
Proof.
  intros now f.
  assert (request_count loop_init + 1 < API_REQUEST_LIMIT) as Hrc
    by (unfold API_REQUEST_LIMIT; simpl; lia).
  assert (find_place_id Sample.world "k" (row_field Sample.home "Title")
            (row_field Sample.home "URL") (add_events [processing Sample.home] init)
          = (Ok (JStr "ChIJ1"), Sample.st_found)) as Hfind
    by (vm_compute; reflexivity).
  assert (get_place_details Sample.world "k" (JStr "ChIJ1")
            (add_events [EvSleep REQUEST_DELAY_S] Sample.st_found)
          = (Ok (Some Sample.details_home), Sample.st_located)) as Hdet
    by (vm_compute; reflexivity).
  destruct (located_feature Sample.world "k" now 0 Sample.home loop_init init
              (JStr "ChIJ1") Sample.st_found Sample.details_home Sample.st_located
              Hrc Hfind eq_refl Hdet)
    as (Hrow & data & loc & Hreply & _ & _ & Hco & _ & _ & _ & Haddr).
  split; [exact Hrc|]. split; [exact Hfind|]. split; [exact Hdet|].
  split; [exact Hrow|]. split; [exact Hco|].
  apply Haddr. vm_compute in Hreply. injection Hreply as <-. reflexivity.
Defined.

(** C8. For a located row the coordinates are in GeoJSON axis order:
    [coordinates[0]] is the [lng] and [coordinates[1]] the [lat] of the
    location that Place Details returned. *)
Theorem coordinates_lng_lat (w : World) key pid st d st' r now :
  get_place_details w key pid st = (Ok (Some d), st') ->
  exists data loc coords,
    next_reply w st (PlaceDetails key pid) = Some data
    /\ reply_location data = Some loc
    /\ feature_coordinates (build_feature r (Some d) now) = Some (JArr coords)
    /\ length coords = 2%nat
    /\ coords !! 0%nat = Py.lookup "lng" loc
    /\ coords !! 1%nat = Py.lookup "lat" loc.
Proof.
  intros Hdet.
  destruct (get_place_details_some _ _ _ _ _ _ Hdet)
    as (data & loc & Hreply & Hloc & Hlat & Hlng & _).
  destruct (build_feature_located r d now) as (_ & Hco & _).
  exists data, loc, [lng d; lat d]. rewrite Hlat, Hlng. done.
Qed.

Lemma coordinates_lng_lat_witness :
  get_place_details Sample.world "k" (JStr "ChIJ1")
    (add_events [EvSleep REQUEST_DELAY_S] Sample.st_found)
  = (Ok (Some Sample.details_home), Sample.st_located)
  /\ exists data loc coords,
       next_reply Sample.world (add_events [EvSleep REQUEST_DELAY_S] Sample.st_found)
         (PlaceDetails "k" (JStr "ChIJ1")) = Some data
       /\ reply_location data = Some loc
       /\ feature_coordinates
            (build_feature Sample.home (Some Sample.details_home) "2024-05-01T10:00:00Z")
          = Some (JArr coords)
       /\ length coords = 2%nat
       /\ coords !! 0%nat = Py.lookup "lng" loc
       /\ coords !! 1%nat = Py.lookup "lat" loc.
Proof.
  assert (get_place_details Sample.world "k" (JStr "ChIJ1")
            (add_events [EvSleep REQUEST_DELAY_S] Sample.st_found)
          = (Ok (Some Sample.details_home), Sample.st_located)) as Hdet
    by (vm_compute; reflexivity).
  split; [exact Hdet|].
  exact (coordinates_lng_lat Sample.world "k" (JStr "ChIJ1") _ _ _
           Sample.home "2024-05-01T10:00:00Z" Hdet).
Defined.

(** C4. Every row whose lookup fails gets the placeholder Feature, with
    coordinates [[0, 0]] and the ["Comment"] saying that no location
    information is available, and nothing more is tried for it. The
    lookup fails in four ways: the budget is used up before the row; Find
    Place returns no place id; it returns one but the budget forbids the
    second request; Place Details returns [None]. In each the iteration
    appends the placeholder and ends with at most a sleep: no further
    request. *)
Theorem unlocated_feature (w : World) key now i r ls st :
  let title := row_field r "Title" in
  let url := row_field r "URL" in
  let placeholder := build_feature r None now in
  (feature_coordinates placeholder = Some (JArr [JInt 0; JInt 0])
   /\ feature_property "Comment" placeholder
      = Some (JStr "No location information is available for this saved place"))
  /\ http_count (idle_events i) = O
  /\ (API_REQUEST_LIMIT <= request_count ls ->
      enrich_row w key now i r ls st
      = (Ok (row_done ls placeholder (request_count ls) true),
         add_events (processing r :: idle_events i) st))
  /\ (request_count ls < API_REQUEST_LIMIT ->
      forall pid st1,
        find_place_id w key title url (add_events [processing r] st) = (Ok pid, st1) ->
        (Py.truthy pid && (request_count ls + 1 <? API_REQUEST_LIMIT) = false ->
         enrich_row w key now i r ls st
         = (Ok (row_done ls placeholder (request_count ls + 1)
                  (Py.truthy pid || limit_reached ls)),
            add_events (idle_events i) st1))
        /\ (Py.truthy pid && (request_count ls + 1 <? API_REQUEST_LIMIT) = true ->
            forall st2,
              get_place_details w key pid (add_events [EvSleep REQUEST_DELAY_S] st1)
              = (Ok None, st2) ->
              enrich_row w key now i r ls st
              = (Ok (row_done ls placeholder (request_count ls + 2) (limit_reached ls)),
                 add_events (idle_events i) st2))).
Proof.
  intros title url placeholder. subst placeholder.
  split; [|split; [apply idle_events_http|split]].
  - destruct (build_feature_unlocated r now) as (_ & Hco & Hcm & _). done.
  - apply enrich_row_exhausted.
  - intros Hrc pid st1 Hfind. rewrite enrich_row_budget by done.
    fold title url. rewrite Hfind. split.
    + by intros ->.
    + intros -> st2 Hdet. by rewrite Hdet.
Qed.

Lemma unlocated_feature_witness :
  (API_REQUEST_LIMIT <= request_count Sample.spent
   /\ enrich_row Sample.world "k" "2024-05-01T10:00:00Z" 1 Sample.home Sample.spent init
      = (Ok (row_done Sample.spent
               (build_feature Sample.home None "2024-05-01T10:00:00Z") 1000 true),
         add_events [processing Sample.home; EvSleep REQUEST_DELAY_S] init))
  /\ (request_count loop_init < API_REQUEST_LIMIT
      /\ enrich_row Edge.world_zero_results "k" "2024-05-01T10:00:00Z" 1 Sample.home
           loop_init init
         = (Ok (row_done loop_init
                  (build_feature Sample.home None "2024-05-01T10:00:00Z") 1 false),
            add_events [EvSleep REQUEST_DELAY_S] Sample.st_found))
  /\ (enrich_row Sample.world_no_lng "k" "2024-05-01T10:00:00Z" 1 Sample.home
        loop_init init
      = (Ok (row_done loop_init
               (build_feature Sample.home None "2024-05-01T10:00:00Z") 2 false),
         add_events [EvSleep REQUEST_DELAY_S] Sample.st_located)).
Proof.
  assert (API_REQUEST_LIMIT <= request_count Sample.spent) as Hspent
    by (unfold API_REQUEST_LIMIT; simpl; lia).
  assert (request_count loop_init < API_REQUEST_LIMIT) as Hrc
    by (unfold API_REQUEST_LIMIT; simpl; lia).
  split; [|split].
  - split; [exact Hspent|].
    exact (proj1 (proj2 (proj2 (unlocated_feature Sample.world "k"
                     "2024-05-01T10:00:00Z" 1 Sample.home Sample.spent init))) Hspent).
  - split; [exact Hrc|].
    refine (proj1 (proj2 (proj2 (proj2 (unlocated_feature Edge.world_zero_results "k"
                     "2024-05-01T10:00:00Z" 1 Sample.home loop_init init)))
                     Hrc JNull Sample.st_found _) eq_refl).
    vm_compute. reflexivity.
  - refine (proj2 (proj2 (proj2 (proj2 (unlocated_feature Sample.world_no_lng "k"
                     "2024-05-01T10:00:00Z" 1 Sample.home loop_init init)))
                     Hrc (JStr "ChIJ1") Sample.st_found _) eq_refl
                     Sample.st_located _);
      vm_compute; reflexivity.
Defined.

(** C7. [main] asks for the input file, then for the output path, and only
    then reads the API key. When either dialog is cancelled it returns
    having only asked and printed: no environment read, no request, no
    file written. *)
Theorem dialogs_before_api_key (w : World) :
  (forall st, askopenfilename w = "" ->
     main w st
     = (Ok tt, add_events [EvAskInput; EvPrint "No input file selected. Exiting."] st)
     /\ files (main w st).2 = files st)
  /\ (forall st, askopenfilename w <> "" -> asksaveasfilename w = "" ->
        main w st
        = (Ok tt, add_events [EvAskInput; EvAskOutput;
                              EvPrint "No output file selected. Exiting."] st)
        /\ files (main w st).2 = files st)
  /\ (askopenfilename w <> "" -> asksaveasfilename w <> "" ->
      exists rest,
        trace (main w init).2
        = [EvAskInput; EvAskOutput; EvGetenv "GOOGLE_PLACES_API_KEY"] ++ rest).
Proof.
  split; [|split].
  - intros st H. by rewrite main_no_input.
  - intros st Hin Hout. by rewrite main_no_output.
  - intros Hin Hout.
    destruct (main_summary w Hin Hout) as (kevs & rest & Htr & [-> | ->] & _);
      rewrite Htr; eexists; simpl; reflexivity.
Qed.

Lemma dialogs_before_api_key_witness :
  (askopenfilename Sample.world_no_input = ""
   /\ main Sample.world_no_input init
      = (Ok tt, add_events [EvAskInput; EvPrint "No input file selected. Exiting."] init))
  /\ (askopenfilename Sample.world_no_output <> ""
      /\ asksaveasfilename Sample.world_no_output = ""
      /\ main Sample.world_no_output init
         = (Ok tt, add_events [EvAskInput; EvAskOutput;
                               EvPrint "No output file selected. Exiting."] init))
  /\ (askopenfilename Sample.world <> ""
      /\ asksaveasfilename Sample.world <> ""
      /\ exists rest,
           trace (main Sample.world init).2
           = [EvAskInput; EvAskOutput; EvGetenv "GOOGLE_PLACES_API_KEY"] ++ rest).
Proof.
  split; [|split].
  - split; [reflexivity|].
    exact (proj1 (proj1 (dialogs_before_api_key Sample.world_no_input) init eq_refl)).
  - split; [discriminate|]. split; [reflexivity|].
    refine (proj1 (proj1 (proj2 (dialogs_before_api_key Sample.world_no_output))
                     init _ eq_refl)).
    discriminate.
  - split; [discriminate|]. split; [discriminate|].
    refine (proj2 (proj2 (dialogs_before_api_key Sample.world)) _ _); discriminate.
Defined.

(** C3. While the budget allows a request, a row is looked up in two
    steps. [find_place_id] runs first and sends at most the Find Place
    from Text request. The Place Details request follows it, and is sent
    only when a place id came back and the counter is still below the
    limit. Otherwise no Place Details request is sent and the row gets the
    Feature of a row without location data. *)
Theorem two_step_lookup (w : World) key now i r ls st :
  request_count ls < API_REQUEST_LIMIT ->
  let title := row_field r "Title" in
  let url := row_field r "URL" in
  let found := find_place_id w key title url (add_events [processing r] st) in
  let out := enrich_row w key now i r ls st in
  exists fevs,
    found.2 = add_events (processing r :: fevs) st
    /\ (fevs = [] \/ fevs = [EvHttp (FindPlaceFromText key (find_query title url))])
    /\ match found.1 with
       | Raise e => out = (Raise e, found.2)
       | Ok pid =>
           if Py.truthy pid && (request_count ls + 1 <? API_REQUEST_LIMIT) then
             let looked := get_place_details w key pid
                             (add_events [EvSleep REQUEST_DELAY_S] found.2) in
             exists tail,
               out.2 = add_events
                         (processing r :: fevs
                          ++ [EvSleep REQUEST_DELAY_S; EvHttp (PlaceDetails key pid)]
                          ++ tail) st
               /\ (tail = [] \/ tail = idle_events i)
               /\ out.1 = match looked.1 with
                          | Ok d => Ok (row_done ls (build_feature r d now)
                                          (request_count ls + 2) (limit_reached ls))
                          | Raise e => Raise e
                          end
           else
             out = (Ok (row_done ls (build_feature r None now) (request_count ls + 1)
                          (Py.truthy pid || limit_reached ls)),
                    add_events (processing r :: fevs ++ idle_events i) st)
       end.
Proof.
  intros Hrc title url found out. subst out. rewrite enrich_row_budget by done.
  fold title url found.
  destruct (find_place_id_events w key title url (add_events [processing r] st))
    as (fevs & Hst1 & Hfevs).
  fold found in Hst1. clearbody found. destruct found as [rp st1].
  simpl in *. subst st1. exists fevs.
  split; [by rewrite add_events_app|]. split; [done|].
  destruct rp as [pid|e]; [|reflexivity].
  destruct (Py.truthy pid && (request_count ls + 1 <? API_REQUEST_LIMIT)).
  - pose proof (get_place_details_events w key pid
                  (add_events [EvSleep REQUEST_DELAY_S]
                     (add_events fevs (add_events [processing r] st)))) as Hst2.
    destruct (get_place_details _ _ _ _) as [[d|e] st2]; simpl in *; subst st2.
    + exists (match d with None => idle_events i | Some _ => [] end).
      split; [rewrite !add_events_app; norm_trace|].
      split; [destruct d; auto|done].
    + exists []. split; [rewrite !add_events_app; norm_trace|]. split; [auto|done].
  - rewrite !add_events_app. norm_trace.
Qed.

Lemma two_step_lookup_witness :
  request_count Sample.nearly_spent < API_REQUEST_LIMIT
  /\ enrich_row Sample.world "k" "2024-05-01T10:00:00Z" 0 Sample.home
       Sample.nearly_spent init
     = (Ok (row_done Sample.nearly_spent
              (build_feature Sample.home None "2024-05-01T10:00:00Z") 1000 true),
        Sample.st_found).
Proof.
  assert (request_count Sample.nearly_spent < API_REQUEST_LIMIT) as Hrc
    by (unfold API_REQUEST_LIMIT; simpl; lia).
  split; [exact Hrc|].
  destruct (two_step_lookup Sample.world "k" "2024-05-01T10:00:00Z" 0 Sample.home
              Sample.nearly_spent init Hrc) as (fevs & Hst & _ & Hout).
  assert (fevs = [EvHttp (FindPlaceFromText "k" "Westdam 59")]) as ->.
  { vm_compute in Hst. by injection Hst as <-. }
  exact Hout.
Defined.

(** C1. The number of API requests sent in a run never exceeds
    [API_REQUEST_LIMIT]. Every iteration of the enrichment loop keeps the
    invariant that the requests sent are at most [request_count], which is
    at most the limit; and so the trace of a whole run holds at most
    [API_REQUEST_LIMIT] requests, whatever the CSV and the replies. *)
Theorem request_budget_respected (w : World) :
  (forall key now i r ls st,
     budget_inv ls st ->
     let out := enrich_row w key now i r ls st in
     Z.of_nat (http_count (trace out.2)) <= API_REQUEST_LIMIT
     /\ forall ls', out.1 = Ok ls' -> budget_inv ls' out.2)
  /\ Z.of_nat (http_count (trace (main w init).2)) <= API_REQUEST_LIMIT.
Proof.
  split.
  - intros key now i r ls st Hinv out. subst out.
    destruct (enrich_row_step w key now i r ls st Hinv) as (evs & Hst & _ & Hb & Hres).
    rewrite Hst. simpl. split; [done|].
    intros ls' Hok. rewrite Hok in Hres. destruct Hres as (Hlo & Hhi & _).
    split; simpl; done.
  - destruct (decide (askopenfilename w = "")) as [Hin|Hin].
    { rewrite main_no_input by done. unfold API_REQUEST_LIMIT, http_count. simpl. lia. }
    destruct (decide (asksaveasfilename w = "")) as [Hout|Hout].
    { rewrite main_no_output by done. unfold API_REQUEST_LIMIT, http_count. simpl. lia. }
    destruct (main_summary w Hin Hout) as (kevs & rest & Htr & Hkevs & Hrest).
    rewrite Htr, !http_count_app.
    assert (http_count kevs = O) as -> by (destruct Hkevs as [-> | ->]; reflexivity).
    destruct Hrest as [(-> & _) | (levs & wevs & -> & _ & Hb & Hw)].
    { unfold API_REQUEST_LIMIT, http_count. simpl. lia. }
    rewrite !http_count_app.
    assert (http_count wevs = O) as ->.
    { destruct Hw as [([-> | ->] & _) | (rows & ls & _ & _ & -> & _)];
        [done|done|].
      unfold closing_events. by destruct (limit_reached ls). }
    unfold http_count in *. simpl. lia.
Qed.

Lemma request_budget_respected_witness :
  budget_inv Sample.nearly_spent init
  /\ (let out := enrich_row Sample.world "k" "2024-05-01T10:00:00Z" 0 Sample.home
                   Sample.nearly_spent init in
      Z.of_nat (http_count (trace out.2)) <= API_REQUEST_LIMIT
      /\ forall ls', out.1 = Ok ls' -> budget_inv ls' out.2)
  /\ Z.of_nat (http_count (trace (main Sample.world init).2)) <= API_REQUEST_LIMIT.
Proof.
  assert (budget_inv Sample.nearly_spent init) as Hinv
    by (unfold budget_inv, API_REQUEST_LIMIT, http_count; simpl; lia).
  split; [exact Hinv|]. split.
  - exact (proj1 (request_budget_respected Sample.world) "k" "2024-05-01T10:00:00Z"
             O Sample.home Sample.nearly_spent init Hinv).
  - exact (proj2 (request_budget_respected Sample.world)).
Defined.

(** C2, as the code has it. The document written to the output path is a
    JSON object with ["type": "FeatureCollection"] whose ["features"] array
    holds exactly one Feature per input row that has a non-blank Title or
    URL, in the order of those rows in the CSV; rows whose Title and URL
    are both blank are skipped. A run that ends normally with both paths
    chosen has written it. *)
Theorem one_feature_per_kept_row (w : World) :
  let final := main w init in
  (forall path doc,
     files final.2 !! path = Some doc ->
     path = asksaveasfilename w
     /\ exists rows fs,
          read_csv w (askopenfilename w) = Ok rows
          /\ doc = JObj [("type", JStr "FeatureCollection"); ("features", JArr fs)]
          /\ Forall2 (feature_of (utcnow w)) (List.filter keep_row rows) fs)
  /\ (askopenfilename w <> "" -> asksaveasfilename w <> "" -> final.1 = Ok tt ->
      is_Some (files final.2 !! asksaveasfilename w)).
Proof.
  intros final. subst final. split.
  - intros path doc Hdoc.
    destruct (main_written w path doc Hdoc) as (-> & rows & ls & Hrows & Hfs & -> & _).
    split; [done|]. by exists rows, (features ls).
  - intros Hin Hout Hok.
    destruct (main_summary w Hin Hout) as (kevs & rest & _ & _ & Hrest).
    destruct Hrest as [(_ & _ & e & He) | (levs & wevs & _ & _ & _ & Hw)];
      [congruence|].
    destruct Hw as [(_ & _ & e & He) | (rows & ls & _ & _ & _ & -> & _)];
      [congruence|].
    rewrite lookup_singleton_eq. eauto.
Qed.

Lemma one_feature_per_kept_row_witness :
  files (main Sample.world init).2 !! "places.json" = Some Sample.document
  /\ exists rows fs,
       read_csv Sample.world "places.csv" = Ok rows
       /\ Sample.document
          = JObj [("type", JStr "FeatureCollection"); ("features", JArr fs)]
       /\ Forall2 (feature_of "2024-05-01T10:00:00Z") (List.filter keep_row rows) fs.
Proof.
  assert (files (main Sample.world init).2 !! "places.json" = Some Sample.document)
    as Hdoc by (vm_compute; reflexivity).
  split; [exact Hdoc|].
  exact (proj2 (proj1 (one_feature_per_kept_row Sample.world)
                  "places.json" Sample.document Hdoc)).
Defined.

(** C2, as stated, fails: a CSV row whose Title and URL are both blank
    gets no Feature. Here the CSV has two rows and the run ends normally,
    yet the written document holds a single Feature. *)
Lemma blank_row_gets_no_feature :
  let final := main Sample.world init in
  final.1 = Ok tt
  /\ read_csv Sample.world (askopenfilename Sample.world)
     = Ok [Sample.home; Sample.blank]
  /\ exists fs,
       files final.2 !! asksaveasfilename Sample.world
       = Some (JObj [("type", JStr "FeatureCollection"); ("features", JArr fs)])
       /\ length fs = 1%nat
       /\ ~ Forall2 (feature_of (utcnow Sample.world)) [Sample.home; Sample.blank] fs.
Proof.
  split; [vm_compute; reflexivity|]. split; [reflexivity|].
  eexists. split; [vm_compute; reflexivity|]. split; [reflexivity|].
  intros H. apply Forall2_length in H. discriminate.
Qed.

(** C9. Every Feature of a run, located or not, carries the same ["date"]:
    the clock is read at most once in a run, before the loop, and each
    Feature of the written document has that timestamp as its date. *)
Theorem single_timestamp (w : World) :
  let final := main w init in
  (length (List.filter is_now (trace final.2)) <= 1)%nat
  /\ forall path doc,
       files final.2 !! path = Some doc ->
       exists fs,
         doc = feature_collection fs
         /\ Forall (fun f => feature_property "date" f = Some (JStr (utcnow w))) fs.
Proof.
  intros final. subst final. split.
  - destruct (decide (askopenfilename w = "")) as [Hin|Hin].
    { rewrite main_no_input by done. simpl. lia. }
    destruct (decide (asksaveasfilename w = "")) as [Hout|Hout].
    { rewrite main_no_output by done. simpl. lia. }
    destruct (main_summary w Hin Hout) as (kevs & rest & -> & Hkevs & Hrest).
    rewrite !List.filter_app, !length_app.
    assert (List.filter is_now kevs = []) as ->
      by (destruct Hkevs as [-> | ->]; reflexivity).
    destruct Hrest as [(-> & _) | (levs & wevs & -> & Hlevs & _ & Hw)];
      [simpl; lia|].
    rewrite !List.filter_app, !length_app, (loop_events_not_now levs Hlevs).
    assert (List.filter is_now wevs = []) as ->.
    { destruct Hw as [([-> | ->] & _) | (rows & ls & _ & _ & -> & _)];
        [done|done|].
      unfold closing_events. by destruct (limit_reached ls). }
    simpl. lia.
  - intros path doc Hdoc.
    destruct (main_written w path doc Hdoc) as (_ & rows & ls & _ & Hfs & -> & _).
    exists (features ls). split; [done|]. by apply (features_dated _ _ _ Hfs).
Qed.

Lemma single_timestamp_witness :
  files (main Sample.world init).2 !! "places.json" = Some Sample.document
  /\ exists fs,
       Sample.document = feature_collection fs
       /\ Forall (fun f => feature_property "date" f
                           = Some (JStr "2024-05-01T10:00:00Z")) fs.
Proof.
  assert (files (main Sample.world init).2 !! "places.json" = Some Sample.document)
    as Hdoc by (vm_compute; reflexivity).
  split; [exact Hdoc|].
  exact (proj2 (single_timestamp Sample.world) "places.json" Sample.document Hdoc).
Defined.

(** * Further properties of the code *)

(** ** The API key *)

Lemma str_truthy_true s : Py.str_truthy s = true <-> s <> "".
Proof.
  unfold Py.str_truthy. rewrite negb_true_iff. apply String.eqb_neq.
Qed.

Lemma str_truthy_false s : Py.str_truthy s = false <-> s = "".
Proof.
  unfold Py.str_truthy. rewrite negb_false_iff. apply String.eqb_eq.
Qed.

(** X1. [get_api_key] returns [GOOGLE_PLACES_API_KEY] when it is set and
    not empty; else [GOOGLE_MAPS_API_KEY] when that one is set and not
    empty; else it raises [SystemExit]. A key it returns is never empty. *)
Theorem get_api_key_precedence (w : World) st :
  let places := environ w !! "GOOGLE_PLACES_API_KEY" in
  let maps := environ w !! "GOOGLE_MAPS_API_KEY" in
  let got := (get_api_key w st).1 in
  (forall k, places = Some k -> k <> "" -> got = Ok k)
  /\ (places = None \/ places = Some "" ->
      forall k, maps = Some k -> k <> "" -> got = Ok k)
  /\ (places = None \/ places = Some "" -> maps = None \/ maps = Some "" ->
      got = Raise (SystemExit API_KEY_MISSING))
  /\ (forall k, got = Ok k -> k <> "").
Proof.
  intros places maps got. subst places maps got.
  unfold get_api_key, environ_get. run_m.
  destruct (environ w !! "GOOGLE_PLACES_API_KEY") as [k1|] eqn:E1;
    destruct (environ w !! "GOOGLE_MAPS_API_KEY") as [k2|] eqn:E2;
    try destruct (Py.str_truthy k1) eqn:T1;
    try destruct (Py.str_truthy k2) eqn:T2;
    simpl; rewrite ?E2; simpl; rewrite ?T1, ?T2; simpl;
    try apply str_truthy_true in T1; try apply str_truthy_true in T2;
    try apply str_truthy_false in T1; try apply str_truthy_false in T2;
    repeat match goal with |- _ /\ _ => split end;
    try (intros; intuition (try discriminate; congruence)).
Qed.

Lemma get_api_key_precedence_witness :
  environ Sample.world !! "GOOGLE_PLACES_API_KEY" = Some "k"
  /\ (get_api_key Sample.world init).1 = Ok "k".
Proof.
  split; [reflexivity|].
  refine (proj1 (get_api_key_precedence Sample.world init) "k" eq_refl _).
  discriminate.
Defined.

(** ** Runs that end in an exception *)


(** X2. With both paths chosen and no usable API key, [main] raises
    [SystemExit] right after reading the two environment variables: the
    clock and the CSV are not read, no request is sent, no file is
    written. *)
Theorem main_without_api_key (w : World) :
  askopenfilename w <> "" ->
  asksaveasfilename w <> "" ->
  (environ w !! "GOOGLE_PLACES_API_KEY" = None
   \/ environ w !! "GOOGLE_PLACES_API_KEY" = Some "") ->
  (environ w !! "GOOGLE_MAPS_API_KEY" = None
   \/ environ w !! "GOOGLE_MAPS_API_KEY" = Some "") ->
  main w init
  = (Raise (SystemExit API_KEY_MISSING),
     add_events [EvAskInput; EvAskOutput; EvGetenv "GOOGLE_PLACES_API_KEY";
                 EvGetenv "GOOGLE_MAPS_API_KEY"] init).
Proof.
  intros Hin Hout Hp Hm. rewrite main_selected by done.
  unfold get_api_key, environ_get. run_m.
  destruct Hp as [-> | ->], Hm as [-> | ->]; reflexivity.
Qed.

Lemma main_without_api_key_witness :
  main Edge.world_no_key init
  = (Raise (SystemExit API_KEY_MISSING),
     add_events [EvAskInput; EvAskOutput; EvGetenv "GOOGLE_PLACES_API_KEY";
                 EvGetenv "GOOGLE_MAPS_API_KEY"] init).
Proof.
  apply (main_without_api_key Edge.world_no_key);
    [discriminate | discriminate | left; reflexivity | left; reflexivity].
Defined.

(** X4. When the CSV cannot be read, [main] raises the error of the read
    after the API key and the clock were read, without sending a request. *)
Theorem main_unreadable_csv (w : World) e key st1 :
  askopenfilename w <> "" ->
  asksaveasfilename w <> "" ->
  get_api_key w (add_events [EvAskInput; EvAskOutput] init) = (Ok key, st1) ->
  read_csv w (askopenfilename w) = Raise e ->
  main w init = (Raise e, add_events [EvNow; EvReadCsv (askopenfilename w)] st1)
  /\ http_count (trace (main w init).2) = O.
Proof.
  intros Hin Hout Hkey Hcsv. rewrite main_selected by done.
  rewrite Hkey, Hcsv. simpl. split; [done|].
  destruct (get_api_key_events w (add_events [EvAskInput; EvAskOutput] init))
    as (kevs & Hk & Hkevs).
  rewrite Hkey in Hk. simpl in Hk. subst st1.
  destruct Hkevs as [-> | ->]; reflexivity.
Qed.

Lemma main_unreadable_csv_witness :
  main Edge.world_no_csv init
  = (Raise OSError,
     add_events [EvAskInput; EvAskOutput; EvGetenv "GOOGLE_PLACES_API_KEY";
                 EvNow; EvReadCsv "places.csv"] init)
  /\ http_count (trace (main Edge.world_no_csv init).2) = O.
Proof.
  refine (main_unreadable_csv Edge.world_no_csv OSError "k"
            (add_events [EvAskInput; EvAskOutput; EvGetenv "GOOGLE_PLACES_API_KEY"]
               init) _ _ _ _);
    [discriminate | discriminate | reflexivity | reflexivity].
Defined.

(** ** The text searched for *)

Lemma rstrip_idem s : Py.rstrip (Py.rstrip s) = Py.rstrip s.
Proof.
  induction s as [|c s IH]; [done|]. simpl.
  destruct (Py.rstrip s) as [|d t] eqn:E.
  - destruct (Py.isspace c) eqn:Hc; [done|]. simpl. by rewrite Hc.
  - simpl in *. by rewrite IH.
Qed.

Lemma rstrip_keeps_head c s :
  Py.isspace c = false -> exists t, Py.rstrip (String c s) = String c t.
Proof.
  intros Hc. simpl. destruct (Py.rstrip s); rewrite ?Hc; eauto.
Qed.

Lemma lstrip_head s :
  Py.lstrip s = "" \/ exists c t, Py.lstrip s = String c t /\ Py.isspace c = false.
Proof.
  induction s as [|c s IH]; [by left|]. simpl.
  destruct (Py.isspace c) eqn:Hc; [done|]. right. eauto.
Qed.

(** [strip] is idempotent: a stripped text has no blank at either end. *)
Lemma strip_idem s : Py.strip (Py.strip s) = Py.strip s.
Proof.
  unfold Py.strip. destruct (lstrip_head s) as [-> | (c & t & -> & Hc)]; [done|].
  destruct (rstrip_keeps_head c t Hc) as (u & Hu).
  rewrite Hu. simpl Py.lstrip. rewrite Hc, <- Hu. apply rstrip_idem.
Qed.

Lemma find_query_stripped title url :
  Py.strip (find_query title url) = find_query title url.
Proof. unfold find_query. apply strip_idem. Qed.

(** X5. [find_place_id] never sends an empty or padded query. When the
    text to search for is empty it returns [None] without a request;
    otherwise it sends one Find Place from Text request whose input is
    that text, which is not empty and has no blank at either end. *)
Theorem find_place_id_query (w : World) key title url st :
  let q := find_query title url in
  (q = "" -> find_place_id w key title url st = (Ok JNull, st))
  /\ (q <> "" ->
      (find_place_id w key title url st).2
      = add_events [EvHttp (FindPlaceFromText key q)] st
      /\ Py.strip q = q).
Proof.
  intros q. split.
  - intros Hq. unfold find_place_id. fold q. rewrite Hq. reflexivity.
  - intros Hq. split; [|apply find_query_stripped].
    destruct (find_place_id_events w key title url st) as (evs & Hst & [-> | ->]);
      [|exact Hst].
    exfalso. revert Hst. unfold find_place_id. fold q.
    apply str_truthy_true in Hq. rewrite Hq. simpl.
    unfold requests_get, raise_for_status, response_json. run_m.
    intros Hst.
    assert (trace (add_events [] st) = trace st) as Htr by (by rewrite add_events_nil).
    rewrite <- Hst in Htr. revert Htr.
    repeat (case_match; simplify_eq; simpl);
      intros Htr; apply (f_equal (@length event)) in Htr;
      rewrite length_app in Htr; simpl in Htr; lia.
Qed.

Lemma find_place_id_query_witness :
  find_query "" "http://example.org/x" = ""
  /\ find_place_id Sample.world "k" "" "http://example.org/x" init = (Ok JNull, init)
  /\ find_query "Home" "" <> ""
  /\ (find_place_id Sample.world "k" "Home" "" init).2
     = add_events [EvHttp (FindPlaceFromText "k" "Home")] init.
Proof.
  split; [reflexivity|]. split.
  - exact (proj1 (find_place_id_query Sample.world "k" "" "http://example.org/x" init)
             eq_refl).
  - split; [discriminate|].
    refine (proj1 (proj2 (find_place_id_query Sample.world "k" "Home" "" init) _)).
    discriminate.
Defined.

(** ** What the two lookups make of a reply *)

(** X6. [find_place_id] gives [None] for a reply whose status is not
    ["OK"], or that has no candidates (the key absent, null or an empty
    list). *)
Theorem find_place_id_no_match (w : World) key title url st data :
  find_query title url <> "" ->
  next_reply w st (FindPlaceFromText key (find_query title url)) = Some data ->
  Py.lookup "status" data <> Some (JStr "OK")
  \/ Py.lookup "candidates" data = None
  \/ Py.lookup "candidates" data = Some JNull
  \/ Py.lookup "candidates" data = Some (JArr []) ->
  (find_place_id w key title url st).1 = Ok JNull.
Proof.
  unfold next_reply. intros Hq Hreply Hno.
  unfold find_place_id, requests_get, raise_for_status, response_json.
  apply str_truthy_true in Hq. rewrite Hq. run_m.
  destruct (http_get w (http_count (trace st)) _) as [|[] [[]|]]; try discriminate.
  injection Hreply as ->. simpl.
  destruct (Py.lookup "status" data) as [[]|] eqn:Hs; simpl; try reflexivity.
  destruct (String.eqb s "OK") eqn:E; simpl; [|reflexivity].
  apply String.eqb_eq in E. subst s.
  destruct Hno as [H | [H | [H | H]]]; [congruence|..]; rewrite H; reflexivity.
Qed.

Lemma find_place_id_no_match_witness :
  (find_place_id Edge.world_zero_results "k" "Nowhere" "" init).1 = Ok JNull.
Proof.
  refine (find_place_id_no_match Edge.world_zero_results "k" "Nowhere" "" init
            Edge.zero_results _ eq_refl _).
  - discriminate.
  - left. discriminate.
Defined.

(** X7. On a reply with status ["OK"] and a non-empty list of candidates,
    [find_place_id] returns the [place_id] of the first candidate, and
    [None] when that candidate has none; later candidates are ignored. *)
Theorem find_place_id_first_candidate (w : World) key title url st data c rest :
  find_query title url <> "" ->
  next_reply w st (FindPlaceFromText key (find_query title url)) = Some data ->
  Py.lookup "status" data = Some (JStr "OK") ->
  Py.lookup "candidates" data = Some (JArr (JObj c :: rest)) ->
  (find_place_id w key title url st).1
  = Ok (match Py.lookup "place_id" c with Some id => id | None => JNull end).
Proof.
  unfold next_reply. intros Hq Hreply Hs Hc.
  unfold find_place_id, requests_get, raise_for_status, response_json.
  apply str_truthy_true in Hq. rewrite Hq. run_m.
  destruct (http_get w (http_count (trace st)) _) as [|[] [[]|]]; try discriminate.
  injection Hreply as ->. simpl.
  unfold Py.getitem. rewrite Hs, Hc. reflexivity.
Qed.

Lemma find_place_id_first_candidate_witness :
  (find_place_id Sample.world "k" "Home" "" init).1 = Ok (JStr "ChIJ1").
Proof.
  refine (find_place_id_first_candidate Sample.world "k" "Home" "" init
            [("candidates", JArr [JObj [("place_id", JStr "ChIJ1")]]);
             ("status", JStr "OK")]
            [("place_id", JStr "ChIJ1")] [] _ eq_refl eq_refl eq_refl).
  discriminate.
Defined.

(** The exception of a reply raises in either lookup, with the request in
    the trace. *)
Lemma get_place_details_transport (w : World) key pid st e :
  transport_exn (http_get w (http_count (trace st)) (PlaceDetails key pid)) = Some e ->
  get_place_details w key pid st
  = (Raise e, add_events [EvHttp (PlaceDetails key pid)] st).
Proof.
  unfold get_place_details, requests_get, raise_for_status, response_json. run_m.
  destruct (http_get w (http_count (trace st)) (PlaceDetails key pid))
    as [kind|[] [j|]]; simpl; try discriminate; by intros [= <-].
Qed.

Lemma find_place_id_transport (w : World) key title url st e :
  find_query title url <> "" ->
  transport_exn (http_get w (http_count (trace st))
                   (FindPlaceFromText key (find_query title url))) = Some e ->
  find_place_id w key title url st
  = (Raise e, add_events [EvHttp (FindPlaceFromText key (find_query title url))] st).
Proof.
  intros Hq. apply str_truthy_true in Hq.
  unfold find_place_id, requests_get, raise_for_status, response_json.
  rewrite Hq. run_m.
  destruct (http_get w (http_count (trace st)) _)
    as [kind|[] [j|]]; simpl; try discriminate; by intros [= <-].
Qed.

(** X8. A transport failure is never turned into [None]: it ends the
    loop. When the Find Place request of a row, or its Place Details
    request, gets no response (the exception of [requests.get], a timeout
    among them), an error status ([HTTPError], whatever the body) or a
    body that is not JSON ([JSONDecodeError]), that exception leaves the
    loop with the failed request as the last event: the row gets no
    Feature and the rows after it are not processed. *)
Theorem transport_failure_aborts (w : World) key now i r rest ls st e :
  request_count ls < API_REQUEST_LIMIT ->
  let title := row_field r "Title" in
  let url := row_field r "URL" in
  let find := FindPlaceFromText key (find_query title url) in
  (find_query title url <> "" ->
   transport_exn (http_get w (http_count (trace st)) find) = Some e ->
   enrich_loop w key now i (r :: rest) ls st
   = (Raise e, add_events [processing r; EvHttp find] st))
  /\ (forall pid st1,
        find_place_id w key title url (add_events [processing r] st) = (Ok pid, st1) ->
        Py.truthy pid = true ->
        request_count ls + 1 < API_REQUEST_LIMIT ->
        transport_exn (http_get w (http_count (trace st1)) (PlaceDetails key pid))
        = Some e ->
        enrich_loop w key now i (r :: rest) ls st
        = (Raise e,
           add_events [EvSleep REQUEST_DELAY_S; EvHttp (PlaceDetails key pid)] st1)).
Proof.
  intros Hrc title url find. subst find. split.
  - intros Hq He. cbn [enrich_loop]. unfold bind.
    rewrite enrich_row_budget by done. fold title url.
    rewrite (find_place_id_transport w key title url _ e Hq).
    + by rewrite add_events_app.
    + simpl. by rewrite http_count_app, Nat.add_0_r.
  - intros pid st1 Hfind Hpid Hrc1 He. cbn [enrich_loop]. unfold bind.
    rewrite enrich_row_budget by done. fold title url. rewrite Hfind, Hpid.
    assert ((request_count ls + 1 <? API_REQUEST_LIMIT) = true) as -> by lia.
    simpl. rewrite (get_place_details_transport w key pid _ e).
    + by rewrite add_events_app.
    + simpl. by rewrite http_count_app, Nat.add_0_r.
Qed.

Lemma transport_failure_aborts_witness :
  (enrich_loop Edge.world_offline "k" "2024-05-01T10:00:00Z" O
     [Sample.home; Sample.home] loop_init init
   = (Raise (RequestException Timeout),
      add_events [processing Sample.home;
                  EvHttp (FindPlaceFromText "k" "Westdam 59")] init))
  /\ (enrich_loop Edge.world_bad_details "k" "2024-05-01T10:00:00Z" O
        [Sample.home; Sample.home] loop_init init
      = (Raise HTTPError,
         add_events [EvSleep REQUEST_DELAY_S; EvHttp (PlaceDetails "k" (JStr "ChIJ1"))]
           Sample.st_found)).
Proof.
  assert (request_count loop_init < API_REQUEST_LIMIT) as Hrc
    by (unfold API_REQUEST_LIMIT; simpl; lia).
  split.
  - refine (proj1 (transport_failure_aborts Edge.world_offline "k"
                     "2024-05-01T10:00:00Z" O Sample.home [Sample.home] loop_init init
                     (RequestException Timeout) Hrc) _ eq_refl).
    discriminate.
  - refine (proj2 (transport_failure_aborts Edge.world_bad_details "k"
                     "2024-05-01T10:00:00Z" O Sample.home [Sample.home] loop_init init
                     HTTPError Hrc) (JStr "ChIJ1") Sample.st_found _ eq_refl _ eq_refl).
    + vm_compute. reflexivity.
    + unfold API_REQUEST_LIMIT. simpl. lia.
Defined.

(** X9. The country code is the [short_name] of the first address
    component whose [types] hold ["country"]: components before it that
    are not countries are passed over, components after it are not looked
    at. Without a country component the code is [None], and a component
    that is not a dict, met before any country, raises. *)
Theorem find_country_first (pre post : list json) (c : json) :
  Forall (fun comp => is_country comp = Ok false) pre ->
  find_country pre = Ok JNull
  /\ (is_country c = Ok true ->
      find_country (pre ++ c :: post) = Py.get c "short_name")
  /\ (forall e, is_country c = Raise e ->
                find_country (pre ++ c :: post) = Raise e).
Proof.
  unfold is_country. induction 1 as [|comp pre Hcomp _ IH]; simpl.
  - split; [done|]. split.
    + destruct (Py.get c "types") as [t|]; [|discriminate]. by intros ->.
    + intros e. destruct (Py.get c "types") as [t|]; [by intros ->|congruence].
  - destruct (Py.get comp "types") as [t|]; [|discriminate]. by rewrite Hcomp.
Qed.

Lemma find_country_first_witness :
  find_country
    [JObj [("short_name", JStr "59"); ("types", JArr [JStr "street_number"])];
     JObj [("short_name", JStr "NL"); ("types", JArr [JStr "country"; JStr "political"])];
     JObj [("short_name", JStr "BE"); ("types", JArr [JStr "country"])]]
  = Ok (JStr "NL").
Proof.
  refine (proj1 (proj2 (find_country_first
            [JObj [("short_name", JStr "59"); ("types", JArr [JStr "street_number"])]]
            [JObj [("short_name", JStr "BE"); ("types", JArr [JStr "country"])]]
            (JObj [("short_name", JStr "NL");
                   ("types", JArr [JStr "country"; JStr "political"])]) _)) eq_refl).
  repeat constructor.
Defined.

(** ** The shape of a Feature *)

(** X10. Located and unlocated Features tell themselves apart: a located
    one has a [location] and no ["Comment"], an unlocated one has the
    ["Comment"] and no [location]. The [name] of a located Feature is the
    name of the place, else the row's title; an unlocated Feature has a
    [name] only when the title is not blank. The [location] carries a
    [country_code] exactly when the lookup found one. *)
Theorem feature_shape (r : row) (d : details) now :
  let title := row_field r "Title" in
  let located := build_feature r (Some d) now in
  let unlocated := build_feature r None now in
  feature_property "Comment" located = None
  /\ (exists loc, feature_property "location" located = Some (JObj loc))
  /\ feature_property "name" located = Some (Py.or_ (name d) (JStr title))
  /\ feature_country_code located
     = (if Py.truthy (country_code d) then Some (country_code d) else None)
  /\ feature_property "location" unlocated = None
  /\ feature_property "name" unlocated
     = (if Py.str_truthy title then Some (JStr title) else None).
Proof.
  intros title located unlocated. subst located unlocated. unfold build_feature.
  fold title. destruct (Py.truthy (country_code d)), (Py.str_truthy title);
    repeat split; try reflexivity; eexists; reflexivity.
Qed.

Lemma all_chars_app p s t :
  all_chars p (s ++ t)%string = all_chars p s && all_chars p t.
Proof.
  induction s as [|c s IH]; [done|]. simpl. by rewrite IH, andb_assoc.
Qed.

Lemma quote_char_safe c : all_chars url_char (Py.quote_char c) = true.
Proof.
  destruct c as [[] [] [] [] [] [] [] []]; vm_compute; reflexivity.
Qed.

Lemma quote_plus_safe s : all_chars url_char (Py.quote_plus s) = true.
Proof.
  induction s as [|c s IH]; [done|]. simpl.
  by rewrite all_chars_app, quote_char_safe, IH.
Qed.

Lemma quote_char_id c :
  Py.always_safe c = true -> Py.quote_char c = String c EmptyString.
Proof.
  destruct c as [[] [] [] [] [] [] [] []]; vm_compute; intros H;
    first [discriminate H | reflexivity].
Qed.

Lemma quote_plus_id s : all_chars Py.always_safe s = true -> Py.quote_plus s = s.
Proof.
  induction s as [|c s IH]; [done|]. simpl.
  intros [Hc Hs]%andb_true_iff. by rewrite quote_char_id, IH.
Qed.

(** X11. The [google_maps_url] of a Feature is the row's URL when it is
    not blank. Without a URL, a located Feature gets the search URL
    [http://maps.google.com/?q=] followed by [quote_plus] of the title:
    that text holds only letters, digits and the characters [_.-~+%], and
    it is the title itself when the title holds only letters, digits and
    [_.-~]. An unlocated Feature without a URL gets the empty string. *)
Theorem feature_maps_url (r : row) (d : details) now :
  let url := row_field r "URL" in
  let title := row_field r "Title" in
  let located := build_feature r (Some d) now in
  let unlocated := build_feature r None now in
  (url <> "" ->
   feature_property "google_maps_url" located = Some (JStr url)
   /\ feature_property "google_maps_url" unlocated = Some (JStr url))
  /\ (url = "" ->
      feature_property "google_maps_url" unlocated = Some (JStr "")
      /\ feature_property "google_maps_url" located
         = Some (JStr ("http://maps.google.com/?q=" ++ Py.quote_plus title)%string)
      /\ all_chars url_char (Py.quote_plus title) = true
      /\ (all_chars Py.always_safe title = true -> Py.quote_plus title = title)).
Proof.
  intros url title located unlocated. subst located unlocated. unfold build_feature.
  fold url title. split.
  - intros Hurl. apply str_truthy_true in Hurl. unfold Py.str_or. rewrite Hurl.
    destruct (Py.truthy (country_code d)), (Py.str_truthy title);
      split; reflexivity.
  - intros ->. split; [by destruct (Py.str_truthy title)|].
    split; [by destruct (Py.truthy (country_code d))|].
    split; [apply quote_plus_safe|apply quote_plus_id].
Qed.

Lemma feature_maps_url_witness :
  row_field Edge.titled "URL" = ""
  /\ feature_property "google_maps_url"
       (build_feature Edge.titled (Some Sample.details_home) "2024-05-01T10:00:00Z")
     = Some (JStr "http://maps.google.com/?q=Caf%C3%A9+%26+bar")
  /\ row_field Sample.home "URL" <> ""
  /\ feature_property "google_maps_url"
       (build_feature Sample.home None "2024-05-01T10:00:00Z")
     = Some (JStr "https://www.google.com/maps/place/Westdam+59/data=!4m2").
Proof.
  split; [reflexivity|].
  split.
  - exact (proj1 (proj2 (proj2 (feature_maps_url Edge.titled Sample.details_home
                                  "2024-05-01T10:00:00Z") eq_refl))).
  - split; [discriminate|].
    refine (proj2 (proj1 (feature_maps_url Sample.home Sample.details_home
                            "2024-05-01T10:00:00Z") _)).
    discriminate.
Defined.

(** X12. A Place Details reply with status ["OK"] whose location has a
    latitude and a longitude yields [details]: these two values, the
    formatted address and the name of the result (the empty string for a
    missing one) and the country code of its address components. *)
Theorem get_place_details_complete (w : World) key pid st data loc la lo comps cc :
  next_reply w st (PlaceDetails key pid) = Some data ->
  Py.lookup "status" data = Some (JStr "OK") ->
  reply_location data = Some loc ->
  Py.lookup "lat" loc = Some la -> la <> JNull ->
  Py.lookup "lng" loc = Some lo -> lo <> JNull ->
  Py.iter (Py.or_ (result_field "address_components" data) (JArr [])) = Ok comps ->
  find_country comps = Ok cc ->
  get_place_details w key pid st
  = (Ok (Some {| lat := la; lng := lo;
                 address := Py.or_ (result_field "formatted_address" data) (JStr "");
                 name := Py.or_ (result_field "name" data) (JStr "");
                 country_code := cc |}),
     add_events [EvHttp (PlaceDetails key pid)] st).
Proof.
  unfold next_reply, reply_location, result_field, result_of, geometry_of.
  intros Hreply Hst Hloc Hla Hla0 Hlo Hlo0 Hit Hcc.
  unfold get_place_details, requests_get, raise_for_status, response_json. run_m.
  destruct (http_get w (http_count (trace st)) (PlaceDetails key pid))
    as [|[] [[]|]]; try discriminate.
  injection Hreply as ->. simpl. rewrite Hst. simpl.
  destruct (match Py.lookup "result" data with Some x => x | None => JObj [] end)
    as [| | | | | |res]; try discriminate.
  simpl.
  destruct (match Py.lookup "geometry" res with Some x => x | None => JNull end)
    as [| | | | | |g] eqn:Hg; try discriminate.
  destruct (Py.lookup "location" g) as [[| | | | | |loc']|] eqn:Hl; try discriminate.
  injection Hloc as ->.
  assert (Py.truthy (JObj g) = true) as ->
    by (destruct g; [discriminate|reflexivity]).
  unfold Py.contains, Py.getitem. rewrite Hl. simpl. rewrite Hla, Hlo. simpl.
  rewrite Hit. simpl. rewrite Hcc. simpl.
  destruct la, lo; try congruence; reflexivity.
Qed.

Lemma get_place_details_complete_witness :
  get_place_details Sample.world "k" (JStr "ChIJ1") init
  = (Ok (Some Sample.details_home),
     add_events [EvHttp (PlaceDetails "k" (JStr "ChIJ1"))] init).
Proof.
  refine (get_place_details_complete Sample.world "k" (JStr "ChIJ1") init
            Sample.details_ok [("lat", JInt 52); ("lng", JInt 4)] (JInt 52) (JInt 4)
            [JObj [("short_name", JStr "NL");
                   ("types", JArr [JStr "country"; JStr "political"])]]
            (JStr "NL") eq_refl eq_refl eq_refl eq_refl _ eq_refl _ eq_refl eq_refl);
    discriminate.
Defined.

(** ** The request counter over the loop *)

Section Counter.

Variable w : World.
Variables key now : string.

(** One iteration raises the counter by at most two, and sets the flag
    only when the counter has come within one of the limit. *)
Lemma enrich_row_counter i r ls st ls' st' :
  enrich_row w key now i r ls st = (Ok ls', st') ->
  request_count ls <= request_count ls' <= request_count ls + 2
  /\ (limit_reached ls' = true ->
      limit_reached ls = true \/ API_REQUEST_LIMIT <= request_count ls + 1).
Proof.
  destruct (Z.lt_ge_cases (request_count ls) API_REQUEST_LIMIT) as [Hlt|Hge].
  2:{ rewrite enrich_row_exhausted by done. intros [= <- _]. simpl.
      split; [lia|]. intros _. right. lia. }
  rewrite enrich_row_budget by done.
  destruct (find_place_id _ _ _ _ _) as [[pid|e] st1]; [|discriminate].
  destruct (Py.truthy pid) eqn:Hpid; simpl.
  - destruct (request_count ls + 1 <? API_REQUEST_LIMIT) eqn:Hrc.
    + destruct (get_place_details _ _ _ _) as [[d|e] st2]; [|discriminate].
      intros [= <- _]. simpl. split; [lia|]. auto.
    + intros [= <- _]. simpl. split; [lia|]. intros _. right. lia.
  - intros [= <- _]. simpl. split; [lia|]. auto.
Qed.

Lemma enrich_loop_counter rows : forall i ls st ls' st' (n : nat),
  enrich_loop w key now i rows ls st = (Ok ls', st') ->
  request_count ls <= 2 * Z.of_nat n ->
  (limit_reached ls = true -> API_REQUEST_LIMIT < 2 * Z.of_nat n) ->
  request_count ls' <= 2 * Z.of_nat (n + length rows)
  /\ (limit_reached ls' = true ->
      API_REQUEST_LIMIT < 2 * Z.of_nat (n + length rows)).
Proof.
  induction rows as [|r rest IH]; intros i ls st ls' st' n Hrun Hrc Hlr.
  - injection Hrun as <- _. rewrite Nat.add_0_r. done.
  - simpl in Hrun. unfold bind in Hrun.
    destruct (enrich_row w key now i r ls st) as [[ls1|e] st1] eqn:Hrow;
      [|discriminate].
    destruct (enrich_row_counter _ _ _ _ _ _ Hrow) as ((_ & Hup) & Hflag).
    replace (n + length (r :: rest))%nat with (S n + length rest)%nat
      by (simpl; lia).
    apply (IH _ _ _ _ _ (S n) Hrun); [lia|].
    intros H1. destruct (Hflag H1) as [H0 | H0]; [specialize (Hlr H0)|]; lia.
Qed.

(** At the limit, every remaining row gets the placeholder Feature and no
    request is sent. *)
Lemma enrich_loop_exhausted rows : forall i ls st,
  API_REQUEST_LIMIT <= request_count ls ->
  exists evs,
    enrich_loop w key now i rows ls st
    = (Ok {| features := features ls ++ map (fun r => build_feature r None now) rows;
             request_count := request_count ls;
             limit_reached := match rows with
                              | [] => limit_reached ls
                              | _ => true
                              end |},
       add_events evs st)
    /\ http_count evs = O.
Proof.
  induction rows as [|r rest IH]; intros i ls st Hrc.
  - exists []. simpl. rewrite add_events_nil, app_nil_r. by destruct ls.
  - simpl. unfold bind. rewrite enrich_row_exhausted by done.
    destruct (IH (S i) (row_done ls (build_feature r None now) (request_count ls) true)
                (add_events (processing r :: idle_events i) st) Hrc)
      as (evs & -> & Hevs).
    exists ((processing r :: idle_events i) ++ evs).
    rewrite add_events_app, http_count_app, Hevs. simpl.
    split; [|by destruct i].
    rewrite <- app_assoc. simpl. by destruct rest.
Qed.

End Counter.

(** X13. The budget holds for 500 rows: over [n] rows the counter ends at
    most at [2 n], and the limit flag is raised only when
    [API_REQUEST_LIMIT < 2 n]. So a loop over at most 500 rows never
    raises it. *)
Theorem limit_needs_many_rows (w : World) key now rows st ls' st' :
  enrich_loop w key now O rows loop_init st = (Ok ls', st') ->
  request_count ls' <= 2 * Z.of_nat (length rows)
  /\ (limit_reached ls' = true -> (500 < length rows)%nat)
  /\ ((length rows <= 500)%nat -> limit_reached ls' = false).
Proof.
  intros Hrun.
  destruct (enrich_loop_counter w key now rows O loop_init st ls' st' O Hrun)
    as (Hrc & Hlr); [simpl; lia | discriminate |].
  simpl in Hrc, Hlr. split; [done|].
  assert (limit_reached ls' = true -> (500 < length rows)%nat) as Hflag
    by (intros H; specialize (Hlr H); unfold API_REQUEST_LIMIT in Hlr; lia).
  split; [done|].
  intros Hlen. destruct (limit_reached ls'); [specialize (Hflag eq_refl); lia|done].
Qed.

Lemma limit_needs_many_rows_witness :
  exists ls' st',
    enrich_loop Sample.world "k" "2024-05-01T10:00:00Z" O [Sample.home] loop_init init
    = (Ok ls', st')
    /\ request_count ls' <= 2
    /\ limit_reached ls' = false.
Proof.
  eexists _, _. split; [vm_compute; reflexivity|].
  match goal with
  | |- request_count ?l <= _ /\ _ =>
      destruct (limit_needs_many_rows Sample.world "k" "2024-05-01T10:00:00Z"
                  [Sample.home] init l
                  (enrich_loop Sample.world "k" "2024-05-01T10:00:00Z" O
                     [Sample.home] loop_init init).2) as (Hrc & _ & Hlr)
  end.
  - vm_compute. reflexivity.
  - split; [exact Hrc|]. apply Hlr. simpl. lia.
Defined.

(** X14. Once the counter is at the limit, the rest of the loop sends no
    request: every remaining row gets the placeholder Feature, in order,
    the counter stays, and the limit flag is raised. *)
Theorem spent_budget_rows (w : World) key now i rows ls st :
  API_REQUEST_LIMIT <= request_count ls ->
  exists evs ls',
    enrich_loop w key now i rows ls st = (Ok ls', add_events evs st)
    /\ http_count evs = O
    /\ features ls' = features ls ++ map (fun r => build_feature r None now) rows
    /\ request_count ls' = request_count ls
    /\ (rows <> [] -> limit_reached ls' = true).
Proof.
  intros Hrc.
  destruct (enrich_loop_exhausted w key now rows i ls st Hrc) as (evs & Hrun & Hevs).
  eexists evs, _. split; [exact Hrun|]. simpl. repeat split; try done.
  by destruct rows.
Qed.

Lemma spent_budget_rows_witness :
  API_REQUEST_LIMIT <= request_count Sample.spent
  /\ exists evs ls',
       enrich_loop Sample.world "k" "2024-05-01T10:00:00Z" O
         [Sample.home; Sample.home] Sample.spent init
       = (Ok ls', add_events evs init)
       /\ http_count evs = O
       /\ features ls'
          = features Sample.spent
            ++ map (fun r => build_feature r None "2024-05-01T10:00:00Z")
                 [Sample.home; Sample.home]
       /\ request_count ls' = request_count Sample.spent
       /\ ([Sample.home; Sample.home] <> [] -> limit_reached ls' = true).
Proof.
  assert (API_REQUEST_LIMIT <= request_count Sample.spent) as Hrc
    by (unfold API_REQUEST_LIMIT; simpl; lia).
  split; [exact Hrc|].
  exact (spent_budget_rows Sample.world "k" "2024-05-01T10:00:00Z" O
           [Sample.home; Sample.home] Sample.spent init Hrc).
Defined.

(** ** The requests of a run *)

Lemma paced_weaken b t : paced false t = true -> paced b t = true.
Proof.
  destruct t as [|e t]; [done|]. simpl. destruct (is_details e); [done|].
  by destruct b.
Qed.

Lemma paced_app t1 : forall b t2,
  paced b t1 = true -> paced false t2 = true -> paced b (t1 ++ t2) = true.
Proof.
  induction t1 as [|e t1 IH]; intros b t2 H1 H2; simpl in *.
  - by apply paced_weaken.
  - apply andb_true_iff in H1 as [He H1]. rewrite He. simpl. by apply IH.
Qed.

Lemma in_order_app key t1 t2 :
  in_order key t1 = true -> in_order key t2 = true ->
  in_order key (t1 ++ t2) = true.
Proof.
  unfold in_order. intros [P1 K1]%andb_true_iff [P2 K2]%andb_true_iff.
  by rewrite paced_app, forallb_app, K1, K2.
Qed.

Lemma in_order_idle key i : in_order key (idle_events i) = true.
Proof. by destruct i. Qed.

Section Requests.

Variable w : World.

(** The events of one iteration: the print, then at most the Find Place
    request, then at most a sleep and the Place Details request, then at
    most a sleep. *)
Lemma enrich_row_in_order key now i r ls st :
  exists evs,
    (enrich_row w key now i r ls st).2 = add_events evs st
    /\ in_order key evs = true.
Proof.
  destruct (Z.lt_ge_cases (request_count ls) API_REQUEST_LIMIT) as [Hlt|Hge].
  2:{ rewrite enrich_row_exhausted by done. eexists. split; [reflexivity|].
      by destruct i. }
  rewrite enrich_row_budget by done.
  destruct (find_place_id_events w key (row_field r "Title") (row_field r "URL")
              (add_events [processing r] st)) as (fevs & Hst1 & Hfevs).
  assert (in_order key ([processing r] ++ fevs) = true) as Hhead.
  { destruct Hfevs as [-> | ->]; unfold in_order; simpl; [done|].
    by rewrite String.eqb_refl. }
  destruct (find_place_id _ _ _ _ _) as [[pid|e] st1]; simpl in Hst1; subst st1.
  2:{ exists ([processing r] ++ fevs). by rewrite add_events_app. }
  destruct (Py.truthy pid && (request_count ls + 1 <? API_REQUEST_LIMIT)).
  - pose proof (get_place_details_events w key pid
                  (add_events [EvSleep REQUEST_DELAY_S]
                     (add_events fevs (add_events [processing r] st)))) as Hst2.
    assert (in_order key [EvSleep REQUEST_DELAY_S; EvHttp (PlaceDetails key pid)]
            = true) as Hdet
      by (unfold in_order; simpl; by rewrite String.eqb_refl).
    destruct (get_place_details _ _ _ _) as [[d|e] st2]; simpl in Hst2; subst st2.
    + exists (([processing r] ++ fevs)
              ++ [EvSleep REQUEST_DELAY_S; EvHttp (PlaceDetails key pid)]
              ++ match d with None => idle_events i | Some _ => [] end).
      split; [simpl; rewrite !add_events_app; norm_trace|].
      apply in_order_app; [done|]. apply in_order_app; [done|].
      destruct d; [done|apply in_order_idle].
    + exists (([processing r] ++ fevs)
              ++ [EvSleep REQUEST_DELAY_S; EvHttp (PlaceDetails key pid)]).
      split; [simpl; rewrite !add_events_app; norm_trace|].
      by apply in_order_app.
  - exists (([processing r] ++ fevs) ++ idle_events i).
    split; [simpl; rewrite !add_events_app; norm_trace|].
    apply in_order_app; [done|apply in_order_idle].
Qed.

Lemma enrich_loop_in_order key now rows : forall i ls st,
  exists evs,
    (enrich_loop w key now i rows ls st).2 = add_events evs st
    /\ in_order key evs = true.
Proof.
  induction rows as [|r rest IH]; intros i ls st.
  - exists []. simpl. by rewrite add_events_nil.
  - simpl. unfold bind.
    destruct (enrich_row_in_order key now i r ls st) as (evs1 & Hst1 & H1).
    destruct (enrich_row w key now i r ls st) as [[ls1|e] st1];
      simpl in Hst1; subst st1; [|by exists evs1].
    destruct (IH (S i) ls1 (add_events evs1 st)) as (evs2 & Hst2 & H2).
    exists (evs1 ++ evs2). rewrite Hst2, add_events_app.
    split; [done|by apply in_order_app].
Qed.

(** The trace of a whole run is in order for the key [main] obtained; a
    run that obtained none is in order for any key, having no request. *)
Lemma main_in_order :
  in_order
    (match (get_api_key w (add_events [EvAskInput; EvAskOutput] init)).1 with
     | Ok key => key
     | Raise _ => ""
     end)
    (trace (main w init).2) = true.
Proof.
  destruct (decide (askopenfilename w = "")) as [Hin|Hin].
  { by rewrite main_no_input. }
  destruct (decide (asksaveasfilename w = "")) as [Hout|Hout].
  { by rewrite main_no_output. }
  rewrite main_selected by done.
  destruct (get_api_key_events w (add_events [EvAskInput; EvAskOutput] init))
    as (kevs & Hk & Hkevs).
  destruct (get_api_key w _) as [[key|e] st1]; simpl in Hk; subst st1.
  2:{ destruct Hkevs as [-> | ->]; reflexivity. }
  cbv zeta.
  set (st2 := add_events [EvNow; EvReadCsv (askopenfilename w)]
                (add_events kevs (add_events [EvAskInput; EvAskOutput] init))).
  assert (in_order key (trace st2) = true) as Hhead
    by (destruct Hkevs as [-> | ->]; reflexivity).
  destruct (read_csv w (askopenfilename w)) as [rows|e]; [|done].
  destruct (enrich_loop_in_order key (utcnow w) (List.filter keep_row rows) O
              loop_init st2) as (levs & Hst3 & Hlevs).
  clearbody st2. simpl.
  destruct (enrich_loop w key (utcnow w) O _ loop_init st2) as [[ls|e] st3];
    simpl in Hst3; subst st3.
  2:{ simpl. by apply in_order_app. }
  destruct (can_write w (asksaveasfilename w)); simpl; [|by apply in_order_app].
  destruct (can_dump w (asksaveasfilename w)); simpl.
  - rewrite <- app_assoc. apply in_order_app; [done|].
    apply in_order_app; [done|].
    unfold closing_events. by destruct (limit_reached ls).
  - rewrite <- app_assoc. apply in_order_app; [done|]. by apply in_order_app.
Qed.

End Requests.

(** X15. Requests are paced within a row: in the trace of any run, every
    Place Details request comes directly after a sleep. *)
Theorem details_after_sleep (w : World) :
  paced false (trace (main w init).2) = true.
Proof.
  pose proof (main_in_order w) as H. unfold in_order in H.
  by apply andb_true_iff in H as [H _].
Qed.

(** X16. Every request of a run carries the API key that [get_api_key]
    returned, and a run that obtained no key sends no request. *)
Theorem requests_use_the_key (w : World) rq :
  In (EvHttp rq) (trace (main w init).2) ->
  (get_api_key w (add_events [EvAskInput; EvAskOutput] init)).1
  = Ok (request_key rq).
Proof.
  intros Hin. pose proof (main_in_order w) as H. unfold in_order in H.
  apply andb_true_iff in H as [_ H]. rewrite forallb_forall in H.
  specialize (H _ Hin). simpl in H.
  destruct (decide (askopenfilename w = "")) as [Hi|Hi].
  { rewrite main_no_input in Hin by done. simpl in Hin. intuition discriminate. }
  destruct (decide (asksaveasfilename w = "")) as [Ho|Ho].
  { rewrite main_no_output in Hin by done. simpl in Hin. intuition discriminate. }
  destruct (get_api_key_events w (add_events [EvAskInput; EvAskOutput] init))
    as (kevs & Hk & Hkevs).
  rewrite main_selected in Hin by done.
  destruct (get_api_key w _) as [[key|e] st1]; simpl in *.
  - apply String.eqb_eq in H. by subst key.
  - subst st1. destruct Hkevs as [-> | ->]; simpl in Hin; intuition discriminate.
Qed.

Lemma requests_use_the_key_witness :
  In (EvHttp (PlaceDetails "k" (JStr "ChIJ1"))) (trace (main Sample.world init).2)
  /\ (get_api_key Sample.world (add_events [EvAskInput; EvAskOutput] init)).1 = Ok "k".
Proof.
  assert (In (EvHttp (PlaceDetails "k" (JStr "ChIJ1")))
            (trace (main Sample.world init).2)) as Hin
    by (vm_compute; do 8 right; left; reflexivity).
  split; [exact Hin|].
  exact (requests_use_the_key Sample.world (PlaceDetails "k" (JStr "ChIJ1")) Hin).
Defined.

(** X17. A run that ends normally reports as many features as the CSV has
    rows with a title or a URL. *)
Theorem wrote_count (w : World) :
  askopenfilename w <> "" ->
  asksaveasfilename w <> "" ->
  (main w init).1 = Ok tt ->
  exists rows,
    read_csv w (askopenfilename w) = Ok rows
    /\ In (EvPrint ("Wrote " ++ pretty (length (List.filter keep_row rows))
                    ++ " features to " ++ asksaveasfilename w)%string)
         (trace (main w init).2).
Proof.
  intros Hin Hout Hok.
  destruct (main_summary w Hin Hout) as (kevs & rest & Htr & _ & Hrest).
  destruct Hrest as [(_ & _ & e & He) | (levs & wevs & -> & _ & _ & Hw)];
    [congruence|].
  destruct Hw as [(_ & _ & e & He) | (rows & ls & Hrows & Hfs & -> & _)];
    [congruence|].
  exists rows. split; [done|]. rewrite Htr.
  apply Forall2_length in Hfs. rewrite Hfs.
  rewrite !in_app_iff. do 3 right. unfold closing_events. simpl. auto.
Qed.

Lemma wrote_count_witness :
  In (EvPrint "Wrote 1 features to places.json") (trace (main Sample.world init).2).
Proof.
  destruct (wrote_count Sample.world) as (rows & Hrows & Hin);
    [discriminate | discriminate | vm_compute; reflexivity |].
  injection Hrows as <-. exact Hin.
Defined.

(** ** The place reference of a URL *)

Example extract_ex :
  extract_place_ref_from_url
    "https://www.google.com/maps/place/X/data=!4m2!3m1!1s0x47c5:0xAB12!8m2"
  = Some "0x47c5:0xAB12".
Proof. reflexivity. Qed.

Example extract_not_maps_ex :
  extract_place_ref_from_url "https://example.org/!1s0x47c5:0xab12" = None.
Proof. reflexivity. Qed.

Lemma hex_run_spec s :
  s = ((hex_run s).1 ++ (hex_run s).2)%string
  /\ all_chars is_hex (hex_run s).1 = true.
Proof.
  induction s as [|c s [IH1 IH2]]; [done|]. simpl.
  destruct (is_hex c) eqn:Hc; [|done].
  destruct (hex_run s) as [h r]. simpl in *. rewrite Hc, IH2.
  split; [rewrite IH1 at 1; reflexivity|done].
Qed.

Lemma string_app_assoc (a : string) : forall b c : string,
  ((a ++ b) ++ c = a ++ b ++ c)%string.
Proof.
  induction a as [|x a IH]; intros b c; [reflexivity|].
  change (String x ((a ++ b) ++ c) = String x (a ++ b ++ c))%string.
  by rewrite IH.
Qed.

Lemma after_prefix_Some p : forall s r,
  after_prefix p s = Some r <-> s = (p ++ r)%string.
Proof.
  induction p as [|a p IH]; intros s r.
  - simpl. change ("" ++ r)%string with r. split; [by intros [= ->]|by intros ->].
  - change (String a p ++ r)%string with (String a (p ++ r)%string).
    destruct s as [|b s]; simpl; [split; discriminate|].
    destruct (Ascii.eqb a b) eqn:E.
    + apply Ascii.eqb_eq in E. subst b. rewrite IH.
      split; [by intros ->|by intros [= ->]].
    + apply Ascii.eqb_neq in E. split; [discriminate|]. intros [= <- _]. done.
Qed.

(** A match of the reference pattern at the start of [s] is two non-empty
    runs of hexadecimal digits, each after [0x], joined by a colon. *)
Lemma match_ref_sound s ref :
  match_ref s = Some ref ->
  exists h1 h2 rest,
    s = (ref ++ rest)%string
    /\ ref = ("0x" ++ h1 ++ ":0x" ++ h2)%string
    /\ h1 <> "" /\ h2 <> ""
    /\ all_chars is_hex h1 = true /\ all_chars is_hex h2 = true.
Proof.
  unfold match_ref.
  destruct (after_prefix "0x" s) as [s1|] eqn:E1; [|discriminate].
  apply after_prefix_Some in E1.
  destruct (hex_run_spec s1) as [Hs1 Hh1].
  destruct (hex_run s1) as [h1 r1]. simpl in Hs1, Hh1.
  destruct h1 as [|c1 h1]; [discriminate|].
  destruct (after_prefix ":0x" r1) as [s2|] eqn:E2; [|discriminate].
  apply after_prefix_Some in E2.
  destruct (hex_run_spec s2) as [Hs2 Hh2].
  destruct (hex_run s2) as [h2 r2]. simpl in Hs2, Hh2.
  destruct h2 as [|c2 h2]; [discriminate|].
  intros [= <-]. exists (String c1 h1), (String c2 h2), r2.
  split; [|done].
  rewrite E1, Hs1, E2, Hs2. rewrite !string_app_assoc. reflexivity.
Qed.

Lemma search_ref_sound s : forall ref,
  search_ref s = Some ref ->
  exists pre rest, s = (pre ++ "!1s" ++ ref ++ rest)%string /\ match_ref (ref ++ rest) = Some ref.
Proof.
  induction s as [|c s IH]; intros ref.
  - simpl. discriminate.
  - intros H. cbn [search_ref] in H.
    destruct (after_prefix "!1s" (String c s)) as [t|] eqn:E.
    + destruct (match_ref t) as [r|] eqn:Hm.
      * injection H as ->. apply after_prefix_Some in E.
        destruct (match_ref_sound _ _ Hm) as (h1 & h2 & rest & Ht & _).
        exists "", rest. rewrite E, Ht. split; [reflexivity|]. by rewrite <- Ht.
      * destruct (IH _ H) as (pre & rest & -> & Hm'). by exists (String c pre), rest.
    + destruct (IH _ H) as (pre & rest & -> & Hm'). by exists (String c pre), rest.
Qed.

(** X18. A reference that [extract_place_ref_from_url] returns stands in
    the URL right after [!1s], the URL holds [google.com/maps], and the
    reference is [0x], hexadecimal digits, [:0x], hexadecimal digits, with
    at least one digit in each run. *)
Theorem extract_place_ref_sound url ref :
  extract_place_ref_from_url url = Some ref ->
  Py.str_in "google.com/maps" url = true
  /\ exists pre h1 h2 rest,
       url = (pre ++ "!1s" ++ ref ++ rest)%string
       /\ ref = ("0x" ++ h1 ++ ":0x" ++ h2)%string
       /\ h1 <> "" /\ h2 <> ""
       /\ all_chars is_hex h1 = true /\ all_chars is_hex h2 = true.
Proof.
  unfold extract_place_ref_from_url.
  destruct (Py.str_truthy url); [|discriminate]. simpl.
  destruct (Py.str_in "google.com/maps" url); [|discriminate]. simpl.
  intros H. split; [done|].
  destruct (search_ref_sound _ _ H) as (pre & rest & -> & Hm).
  destruct (match_ref_sound _ _ Hm) as (h1 & h2 & rest' & _ & Href).
  by exists pre, h1, h2, rest.
Qed.

Lemma extract_place_ref_sound_witness :
  extract_place_ref_from_url Edge.maps_url = Some "0x47c5:0xAB12"
  /\ exists pre h1 h2 rest,
       Edge.maps_url = (pre ++ "!1s" ++ "0x47c5:0xAB12" ++ rest)%string
       /\ "0x47c5:0xAB12" = ("0x" ++ h1 ++ ":0x" ++ h2)%string
       /\ h1 <> "" /\ h2 <> ""
       /\ all_chars is_hex h1 = true /\ all_chars is_hex h2 = true.
Proof.
  split; [reflexivity|].
  exact (proj2 (extract_place_ref_sound Edge.maps_url "0x47c5:0xAB12" eq_refl)).
Defined.

Lemma hex_run_app h : forall r,
  all_chars is_hex h = true ->
  (r = "" \/ exists c t, r = String c t /\ is_hex c = false) ->
  hex_run (h ++ r) = (h, r).
Proof.
  induction h as [|x h IH]; intros r Hh Hr.
  - change ("" ++ r)%string with r.
    destruct Hr as [-> | (c & t & -> & Hc)]; [done|]. simpl. by rewrite Hc.
  - change (String x h ++ r)%string with (String x (h ++ r)).
    simpl in Hh. apply andb_true_iff in Hh as [Hx Hh].
    simpl. by rewrite Hx, IH.
Qed.

Lemma after_prefix_app p r : after_prefix p (p ++ r) = Some r.
Proof. by apply after_prefix_Some. Qed.

Lemma match_ref_complete h1 h2 rest :
  h1 <> "" -> h2 <> "" ->
  all_chars is_hex h1 = true -> all_chars is_hex h2 = true ->
  (rest = "" \/ exists c t, rest = String c t /\ is_hex c = false) ->
  match_ref ("0x" ++ h1 ++ ":0x" ++ h2 ++ rest)
  = Some ("0x" ++ h1 ++ ":0x" ++ h2)%string.
Proof.
  intros N1 N2 H1 H2 Hrest. unfold match_ref.
  rewrite after_prefix_app.
  rewrite (hex_run_app h1 (":0x" ++ h2 ++ rest)); [|done|].
  2:{ right. by exists ":"%char, ("0x" ++ h2 ++ rest)%string. }
  destruct h1 as [|c1 h1]; [done|]. rewrite after_prefix_app.
  rewrite (hex_run_app h2 rest) by done.
  by destruct h2.
Qed.

(** A text that does not start with [!1s] does not start with it either
    when followed by a text that starts with an exclamation mark. *)
Lemma no_marker_here suf t :
  suf <> "" ->
  String.prefix "!1s" suf = false ->
  after_prefix "!1s" (suf ++ String "!" t) = None.
Proof.
  intros Hne Hp.
  destruct suf as [|a [|b [|c s]]]; [done|..];
    repeat match goal with
           | |- context [(String ?x ?y ++ ?z)%string] =>
               change (String x y ++ z)%string with (String x (y ++ z))
           | |- context [("" ++ ?z)%string] => change ("" ++ z)%string with z
           end;
    cbn [after_prefix].
  - destruct (Ascii.eqb "!" a); reflexivity.
  - destruct (Ascii.eqb "!" a); [|reflexivity].
    destruct (Ascii.eqb "1" b); reflexivity.
  - destruct (Ascii.eqb "!" a) eqn:Ea; [|reflexivity].
    destruct (Ascii.eqb "1" b) eqn:Eb; [|reflexivity].
    destruct (Ascii.eqb "s" c) eqn:Ec; [|reflexivity].
    apply Ascii.eqb_eq in Ea, Eb, Ec. subst a b c.
    destruct s; vm_compute in Hp; discriminate.
Qed.

Lemma search_ref_skip pre : forall t r,
  Py.str_in "!1s" pre = false ->
  match_ref t = Some r ->
  search_ref (pre ++ "!1s" ++ t) = Some r.
Proof.
  induction pre as [|c pre IH]; intros t r Hpre Hm.
  - change ("" ++ "!1s" ++ t)%string with (String "!" (String "1" (String "s" t))).
    cbn [search_ref]. change (String "!" (String "1" (String "s" t)))
      with ("!1s" ++ t)%string.
    by rewrite after_prefix_app, Hm.
  - cbn [Py.str_in] in Hpre. apply orb_false_iff in Hpre as [Hhere Hpre].
    pose proof (no_marker_here (String c pre) ("1s" ++ t) ltac:(done) Hhere) as Hno.
    change (String "!" ("1s" ++ t)) with ("!1s" ++ t)%string in Hno.
    change (String c pre ++ "!1s" ++ t)%string
      with (String c (pre ++ "!1s" ++ t)) in *.
    cbn [search_ref]. rewrite Hno. by apply IH.
Qed.

Lemma prefix_app sub : forall s t,
  String.prefix sub s = true -> String.prefix sub (s ++ t) = true.
Proof.
  induction sub as [|a sub IH]; intros s t; [by destruct s, t|].
  destruct s as [|b s]; [discriminate|].
  change (String b s ++ t)%string with (String b (s ++ t)). simpl.
  destruct (ascii_dec a b); [apply IH|done].
Qed.

Lemma str_in_app sub s : forall t,
  Py.str_in sub s = true -> Py.str_in sub (s ++ t) = true.
Proof.
  induction s as [|c s IH]; intros t.
  - simpl. rewrite orb_false_r. intros H.
    destruct sub; [|discriminate]. by destruct t.
  - change (String c s ++ t)%string with (String c (s ++ t)).
    cbn [Py.str_in]. intros [H|H]%orb_true_iff.
    + apply (prefix_app _ _ t) in H.
      change (String c s ++ t)%string with (String c (s ++ t)) in H.
      by rewrite H.
    + by rewrite (IH t H), orb_true_r.
Qed.

(** X19. The reference of a place URL is found: for a URL made of a part
    that holds [google.com/maps] and no [!1s], then [!1s0x],
    hexadecimal digits, [:0x], hexadecimal digits, then nothing or text
    that starts with another character, [extract_place_ref_from_url]
    returns the text from the first [0x] to the last digit. *)
Theorem extract_place_ref_complete pre h1 h2 rest :
  Py.str_in "google.com/maps" pre = true ->
  Py.str_in "!1s" pre = false ->
  h1 <> "" -> h2 <> "" ->
  all_chars is_hex h1 = true -> all_chars is_hex h2 = true ->
  (rest = "" \/ exists c t, rest = String c t /\ is_hex c = false) ->
  extract_place_ref_from_url (pre ++ "!1s" ++ "0x" ++ h1 ++ ":0x" ++ h2 ++ rest)
  = Some ("0x" ++ h1 ++ ":0x" ++ h2)%string.
Proof.
  intros Hmaps Hpre N1 N2 H1 H2 Hrest. unfold extract_place_ref_from_url.
  rewrite (str_in_app _ _ _ Hmaps).
  assert (Py.str_truthy (pre ++ "!1s" ++ "0x" ++ h1 ++ ":0x" ++ h2 ++ rest) = true)
    as -> by (by destruct pre).
  simpl. apply search_ref_skip; [done|]. by apply match_ref_complete.
Qed.

Lemma extract_place_ref_complete_witness :
  extract_place_ref_from_url Edge.maps_url = Some "0x47c5:0xAB12".
Proof.
  refine (extract_place_ref_complete
            "https://www.google.com/maps/place/X/data=!4m2!3m1" "47c5" "AB12" "!8m2"
            eq_refl eq_refl _ _ eq_refl eq_refl _); try discriminate.
  right. by exists "!"%char, "8m2".
Defined.

(** ** No retry *)

(** X20. A lookup is never retried. Whatever the reply, [find_place_id]
    sends no request or one Find Place from Text request, and
    [get_place_details] sends exactly one Place Details request; neither
    touches the files. *)
Theorem lookups_send_one_request (w : World) key title url pid st :
  let found := (find_place_id w key title url st).2 in
  let looked := (get_place_details w key pid st).2 in
  (trace found = trace st
   \/ trace found = trace st ++ [EvHttp (FindPlaceFromText key (find_query title url))])
  /\ trace looked = trace st ++ [EvHttp (PlaceDetails key pid)]
  /\ files found = files st
  /\ files looked = files st.
Proof.
  intros found looked. subst found looked.
  rewrite get_place_details_events.
  destruct (find_place_id_events w key title url st) as (evs & -> & [-> | ->]);
    simpl; rewrite ?app_nil_r; auto.
Qed.

(** ** What a failed run leaves behind *)



